(** * Notebook-AI: the documentation pipeline of [app.py] and [streamlit_app.py]

    A shallow embedding of [NotebookDocumenter] (both entry points) and of
    [download_colab_notebook], followed by the properties of the pipeline.

    Conventions of the embedding.
    - A Python [str] is a list of code points ([Py.str]).
    - Code that calls the completion service or the network runs in a small
      state-and-exception monad: the state is the log of calls issued so far,
      a computation ends in a value ([Ok]) or in a raised exception ([Raise]),
      and the log written before a raise is kept, as in Python.
    - The completion service and the HTTP layer are arbitrary functions of the
      calls made before and of the current call.
    - The spinner and the progress bar that the pipeline of
      [streamlit_app.py] shows are left out.  The pipeline is modelled on
      the parsed notebook; the two scripts around it are modelled with the
      file system, the parser and the widgets as given functions and
      values. *)

From Stdlib Require Import List NArith ZArith Bool Ascii String Lia.
From Stdlib Require QArith.
Import ListNotations.

Set Implicit Arguments.

(* ================================================================== *)
(** * Python strings *)
(* ================================================================== *)

Module Py.

(** A [str] is a sequence of Unicode code points. *)
Definition str := list N.

(** A literal of the source, written as an ASCII string. *)
Definition lit (s : string) : str := map N_of_ascii (list_ascii_of_string s).

(** The double quote character, for literals that contain one. *)
Definition dq : str := [34%N].

(** The newline character. *)
Definition nl : str := [10%N].

(** [c.isspace()] for one code point: the whitespace table of CPython
    (U+0009..U+000D, U+001C..U+0020, U+0085, U+00A0, U+1680,
    U+2000..U+200A, U+2028, U+2029, U+202F, U+205F, U+3000). *)
Definition isspace (c : N) : bool :=
  ((9 <=? c) && (c <=? 13) || (28 <=? c) && (c <=? 32)
   || (c =? 133) || (c =? 160) || (c =? 5760)
   || (8192 <=? c) && (c <=? 8202)
   || (c =? 8232) || (c =? 8233) || (c =? 8239) || (c =? 8287)
   || (c =? 12288))%N.

(** [s.lstrip()] *)
Fixpoint lstrip (s : str) : str :=
  match s with
  | [] => []
  | c :: s' => if isspace c then lstrip s' else s
  end.

(** [s.rstrip()] *)
Definition rstrip (s : str) : str := rev (lstrip (rev s)).

(** [s.strip()] *)
Definition strip (s : str) : str := rstrip (lstrip s).

(** Truth value of a string: [if s:] holds when [s] is not empty. *)
Definition truthy (s : str) : bool :=
  match s with
  | [] => false
  | _ :: _ => true
  end.

(** [a == b] on strings. *)
Fixpoint eqb (a b : str) : bool :=
  match a, b with
  | [], [] => true
  | x :: a', y :: b' => N.eqb x y && eqb a' b'
  | _, _ => false
  end.

(** [sep.join(parts)] *)
Fixpoint join (sep : str) (parts : list str) : str :=
  match parts with
  | [] => []
  | [p] => p
  | p :: rest => p ++ sep ++ join sep rest
  end.

End Py.

Import Py.

(* ================================================================== *)
(** * Exceptions and effects *)
(* ================================================================== *)

(** A raised exception: its class name and [str(e)].  Every exception of
    the model is an instance of [Exception]. *)
Record exn : Type := mkExn { exn_class : str; exn_str : str }.

Definition ValueError (msg : str) : exn := mkExn (lit "ValueError") msg.

(** What [None.strip()] raises. *)
Definition AttributeError_strip : exn :=
  mkExn (lit "AttributeError")
        (lit "'NoneType' object has no attribute 'strip'").

Inductive result (A : Type) : Type :=
| Ok (a : A)
| Raise (e : exn).

Arguments Ok {A} a.
Arguments Raise {A} e.

(** Computations over a state [S] that may raise. *)
Definition M (S A : Type) : Type := S -> result A * S.

Definition ret {S A : Type} (a : A) : M S A := fun s => (Ok a, s).

Definition raise {S A : Type} (e : exn) : M S A := fun s => (Raise e, s).

Definition bind {S A B : Type} (m : M S A) (k : A -> M S B) : M S B :=
  fun s =>
    match m s with
    | (Ok a, s') => k a s'
    | (Raise e, s') => (Raise e, s')
    end.

(** [try: body / except Exception as e: handler(e)] *)
Definition try_except {S A : Type} (body : M S A) (handler : exn -> M S A)
  : M S A :=
  fun s =>
    match body s with
    | (Ok a, s') => (Ok a, s')
    | (Raise e, s') => handler e s'
    end.

Declare Scope py_scope.
Delimit Scope py_scope with py.
Notation "x <- m ;; k" := (bind m (fun x => k))
  (at level 61, m at next level, right associativity) : py_scope.
Open Scope py_scope.

(** [for x in xs: acc = body(acc, x)], with the mutated object threaded
    through the iterations. *)
Fixpoint for_each {S A B : Type} (body : B -> A -> M S B) (xs : list A)
  (acc : B) : M S B :=
  match xs with
  | [] => ret acc
  | x :: xs' => acc' <- body acc x ;; for_each body xs' acc'
  end.

(* ================================================================== *)
(** * Notebook documents (nbformat, version 4) *)
(* ================================================================== *)

(** One cell of a parsed notebook.  [outputs] and [execution_count] are
    the fields of code cells; other cells carry none. *)
Record nbcell : Type := mkNbcell {
  cell_type : str;
  source : str;
  metadata : list (str * str);
  outputs : list str;
  execution_count : option Z
}.

Record notebook : Type := mkNotebook {
  nb_metadata : list (str * str);
  nb_cells : list nbcell
}.

(** [nbformat.v4.new_notebook()] *)
Definition new_notebook : notebook := mkNotebook [] [].

(** [nbformat.v4.new_markdown_cell(source)].  The identifier that recent
    versions of nbformat draw for a new cell is not part of the model. *)
Definition new_markdown_cell (src : str) : nbcell :=
  mkNbcell (lit "markdown") src [] [] None.

(** [nbformat.v4.new_code_cell(source)] *)
Definition new_code_cell (src : str) : nbcell :=
  mkNbcell (lit "code") src [] [] None.

(** [nb.cells.append(c)] *)
Definition cells_append (nb : notebook) (c : nbcell) : notebook :=
  mkNotebook (nb_metadata nb) (nb_cells nb ++ [c]).

(** The dictionaries [{'type': ..., 'content': ...}] of [extract_cells]. *)
Record cell : Type := mkCell { type : str; content : str }.

(** [extract_cells], on a parsed notebook: the notebook that
    [nbformat.read] or [nbformat.reads] returned, or the one passed in. *)
Definition extract_cells (nb : notebook) : list cell :=
  map (fun c => mkCell (cell_type c) (source c)) (nb_cells nb).

(** [cell['type'] == 'code'] *)
Definition is_code (c : cell) : bool := eqb (type c) (lit "code").

(** [cell['type'] == 'markdown'] *)
Definition is_markdown (c : cell) : bool := eqb (type c) (lit "markdown").

(** [[cell['content'] for cell in cells if cell['type'] == 'code']] *)
Definition code_contents (cells : list cell) : list str :=
  map content (filter is_code cells).

(* ================================================================== *)
(** * The completion service *)
(* ================================================================== *)

(** One entry of [messages]. *)
Record message : Type := mkMessage { role : str; msg_content : str }.

(** The keyword arguments of [client.chat.completions.create]. *)
Record request : Type := mkRequest {
  model : str;
  messages : list message;
  temperature : QArith_base.Q;
  max_tokens : Z;
  top_p : Z;
  stream : bool
}.

(** The calls issued so far, oldest first. *)
Definition trace : Type := list request.

(** The two scripts of the repository. *)
Inductive entry_point : Type := app_py | streamlit_py.

Section Pipeline.

(** The service: from the calls made before and the current call to
    either [response.choices[0].message.content] (a string or [None]) or
    the exception the client raises. *)
Variable client : trace -> request -> result (option str).

(** [self.client.chat.completions.create(...)]: one call, logged whether
    it succeeds or not. *)
Definition chat_completions_create (req : request) : M trace (option str) :=
  fun tr => (client tr req, tr ++ [req]).

(** [response.choices[0].message.content.strip()] *)
Definition content_strip (c : option str) : M trace str :=
  match c with
  | Some text => ret (strip text)
  | None => raise AttributeError_strip
  end.

(** [all_code] of [get_notebook_overview]. *)
Definition all_code (cells : list cell) : str :=
  join nl (code_contents cells).

(** [full_context] of [create_documented_notebook]. *)
Definition full_context (cells : list cell) : str :=
  join (nl ++ nl) (code_contents cells).

(** The prompt template of [get_notebook_overview], with [{code}] filled. *)
Definition overview_prompt (ep : entry_point) (code : str) : str :=
  let verb := match ep with
              | app_py => lit "wirte"
              | streamlit_py => lit "write"
              end in
  join nl
  [ lit "Understand this Jupyter notebook code and provide:"
  ; lit "        1. Start with generating a title describing the notebook's purpose , and dont " ++ verb ++ lit " " ++ dq ++ lit "Title:" ++ dq
  ; lit "        2. A brief summary (2-3 sentences) about what the notebook does, without extra details.and dont " ++ verb ++ lit " " ++ dq ++ lit "Summary" ++ dq
  ; []
  ; lit "        Keep it concise and technical. Write as a data scientist would document their work."
  ; lit "        No placeholder text or generic descriptions."
  ; []
  ; lit "        Code:"
  ; lit "        ```python"
  ; lit "        " ++ code
  ; lit "        ```" ].

(** The prompt of [generate_cell_doc], with [{full_context}] and
    [{cell_content}] filled. *)
Definition cell_prompt (ep : entry_point) (cell_content context : str) : str :=
  join nl
  ([ lit "As an expert data scientist documenting your work, briefly explain what this code does in the context of the notebook's workflow. "
   ; lit "        Write naturally as if documenting your own work, not as an AI, "
   ; lit "        if it is null cell dont generate anything and generate text based on complexity and length of the code present in the cell."
   ; []
   ; lit "        Full notebook context:"
   ; lit "        ```python"
   ; lit "        " ++ context
   ; lit "        ```"
   ; []
   ; lit "        Current code:"
   ; lit "        ```python"
   ; lit "        " ++ cell_content
   ; lit "        ```"
   ; []
   ; lit "       Requirements:"
   ; lit "       - Write in third person technical documentation style"
   ; lit "       - No " ++ dq ++ lit "This code..." ++ dq ++ lit " or " ++ dq ++ lit "Here we..." ++ dq ++ lit " phrases"
   ; lit "       - Be extremely concise - even one phrase is fine if it captures the point"
   ; lit "       - Focus only on meaningful operations"
   ; lit "       - Mention variable names only if crucial"
   ; match ep with
     | app_py => lit "       - Skip obvious operations"
     | streamlit_py => lit "       - Skip obvious operations."
     end
   ; []
   ; lit "       Example good responses:"
   ; lit "       - " ++ dq ++ lit "Normalizes features using StandardScaler" ++ dq
   ; lit "       - " ++ dq ++ lit "Extracts timestamp from log entries for temporal analysis" ++ dq
   ; lit "       - " ++ dq ++ lit "Merges preprocessed datasets on user_id" ++ dq
   ; lit "       - " ++ dq ++ lit "Custom function to handle missing GPS coordinates" ++ dq
   ; []
   ; lit "       Example bad responses:"
   ; lit "       - " ++ dq ++ lit "This code performs..." ++ dq
   ; lit "       - " ++ dq ++ lit "Here we can see..." ++ dq
   ; lit "       - " ++ dq ++ lit "This cell is about..." ++ dq ]
   ++ match ep with
      | app_py =>
          [ lit "       - Any obvious/redundant explanations" ]
      | streamlit_py =>
          [ lit "       - " ++ dq ++ lit " The code .." ++ dq
          ; lit "       - Any obvious/redundant explanations       "
          ; lit "       " ]
      end).

(** The request of the overview call. *)
Definition overview_request (ep : entry_point) (cells : list cell) : request :=
  mkRequest (lit "llama3-8b-8192")
    [ mkMessage (lit "user") (overview_prompt ep (all_code cells)) ]
    match ep with
    | app_py => QArith_base.Qmake 3 10
    | streamlit_py => QArith_base.Qmake 7 10
    end
    300 1 false.

(** The request of one per-cell call. *)
Definition cell_request (ep : entry_point) (cell_content context : str)
  : request :=
  mkRequest (lit "llama3-8b-8192")
    [ mkMessage (lit "user") (cell_prompt ep cell_content context) ]
    match ep with
    | app_py => QArith_base.Qmake 2 10
    | streamlit_py => QArith_base.Qmake 6 10
    end
    100 1 false.

(** The text returned by the [except] branch of [get_notebook_overview]. *)
Definition overview_error (ep : entry_point) (e : exn) : str :=
  match ep with
  | app_py =>
      lit "# Jupyter Notebook Documentation" ++ nl ++ nl
      ++ lit "*Error generating overview*"
  | streamlit_py =>
      lit "# Jupyter Notebook Documentation" ++ nl ++ nl
      ++ lit "*Error generating overview: " ++ exn_str e ++ lit "*"
  end.

(** The text returned by the [except] branch of [generate_cell_doc]. *)
Definition cell_error (ep : entry_point) (e : exn) : str :=
  match ep with
  | app_py => lit "*Error generating documentation*"
  | streamlit_py =>
      lit "*Error generating documentation: " ++ exn_str e ++ lit "*"
  end.

Definition get_notebook_overview (ep : entry_point) (cells : list cell)
  : M trace str :=
  try_except
    (response <- chat_completions_create (overview_request ep cells) ;;
     content_strip response)
    (fun e => ret (overview_error ep e)).

Definition generate_cell_doc (ep : entry_point) (cell_content context : str)
  : M trace str :=
  let call :=
    try_except
      (response <-
         chat_completions_create (cell_request ep cell_content context) ;;
       content_strip response)
      (fun e => ret (cell_error ep e)) in
  match ep with
  | app_py => call
  | streamlit_py =>
      if negb (truthy (strip cell_content)) then ret [] else call
  end.

(** The body of the loop of [create_documented_notebook]. *)
Definition process_cell (ep : entry_point) (context : str)
  (new_nb : notebook) (c : cell) : M trace notebook :=
  if is_code c && truthy (strip (content c)) then
    doc <- generate_cell_doc ep (content c) context ;;
    let new_nb :=
      if truthy doc then cells_append new_nb (new_markdown_cell doc)
      else new_nb in
    ret (cells_append new_nb (new_code_cell (content c)))
  else if is_markdown c then
    ret (cells_append new_nb (new_markdown_cell (content c)))
  else
    ret new_nb.

Definition create_documented_notebook (ep : entry_point) (nb : notebook)
  : M trace notebook :=
  let cells := extract_cells nb in
  let new_nb := new_notebook in
  overview <- get_notebook_overview ep cells ;;
  let new_nb := cells_append new_nb (new_markdown_cell overview) in
  let context := full_context cells in
  for_each (process_cell ep context) cells new_nb.

End Pipeline.

(* ================================================================== *)
(** * The link resolver of [streamlit_app.py] *)
(* ================================================================== *)

(** The character class [[a-zA-Z0-9-_]]: letters, digits, [-] and [_]. *)
Definition id_char (c : N) : bool :=
  ((97 <=? c) && (c <=? 122) || (65 <=? c) && (c <=? 90)
   || (48 <=? c) && (c <=? 57) || (c =? 45) || (c =? 95))%N.

(** The three regular expressions share one shape: a literal, then one
    group of at least [min_run] characters of the class, as long as it
    can be. *)
Record pattern : Type := mkPattern { literal : str; min_run : nat }.

(** [patterns]: [/d/([a-zA-Z0-9-_]+)], [drive/([a-zA-Z0-9-_]+)] and
    [\/([a-zA-Z0-9-_]{20,})]. *)
Definition patterns : list pattern :=
  [ mkPattern (lit "/d/") 1
  ; mkPattern (lit "drive/") 1
  ; mkPattern (lit "/") 20 ].

(** What is left of [s] after the literal [p], when [s] starts with it. *)
Fixpoint strip_prefix (p s : str) : option str :=
  match p, s with
  | [], _ => Some s
  | x :: p', y :: s' => if N.eqb x y then strip_prefix p' s' else None
  | _ :: _, [] => None
  end.

Fixpoint take_while (f : N -> bool) (s : str) : str :=
  match s with
  | [] => []
  | c :: s' => if f c then c :: take_while f s' else []
  end.

(** The pattern matched at the start of [s]: [group(1)]. *)
Definition match_at (p : pattern) (s : str) : option str :=
  match strip_prefix (literal p) s with
  | Some rest =>
      let run := take_while id_char rest in
      if Nat.leb (min_run p) (List.length run) then Some run else None
  | None => None
  end.

(** [re.search(pattern, s)]: the leftmost match; [group(1)] of it. *)
Fixpoint re_search (p : pattern) (s : str) : option str :=
  match match_at p s with
  | Some g => Some g
  | None =>
      match s with
      | [] => None
      | _ :: s' => re_search p s'
      end
  end.

(** The loop over [patterns]: [file_id] of the first pattern that matches,
    [None] when none does. *)
Fixpoint find_file_id (ps : list pattern) (url : str) : option str :=
  match ps with
  | [] => None
  | p :: ps' =>
      match re_search p url with
      | Some g => Some g
      | None => find_file_id ps' url
      end
  end.

(** [download_urls] *)
Definition download_urls (file_id : str) : list str :=
  [ lit "https://drive.google.com/uc?id=" ++ file_id
  ; lit "https://drive.google.com/uc?export=download&id=" ++ file_id ].

Definition file_id_error : exn :=
  ValueError (lit "Could not extract file ID from the provided Colab URL").

Definition download_error : exn :=
  ValueError (join nl
    [ lit "Unable to download the notebook. This might be because:"
    ; lit "    1. The notebook isn't publicly shared"
    ; lit "    2. The URL format is not supported"
    ; lit "    3. Google Drive access restrictions"
    ; lit "    "
    ; lit "    Please make sure the notebook is publicly accessible and try again." ]).

(** An HTTP response, as far as the code reads it. *)
Record response : Type := mkResponse { status_code : Z; body : list N }.

(** The URLs requested so far, oldest first. *)
Definition net_log : Type := list str.

Section LinkResolver.

(** The network: a response or the exception [requests.get] raises. *)
Variable http : net_log -> str -> result response.

(** [nbformat.reads(content.decode('utf-8'), as_version=4)]: the parsed
    notebook or the exception of the decoder or of the parser. *)
Variable decode_reads : list N -> result notebook.

(** [requests.get(url)] *)
Definition requests_get (url : str) : M net_log response :=
  fun log => (http log url, log ++ [url]).

(** The loop over [download_urls]; [Some nb] stands for [return nb] out of
    the loop, [None] for the loop running to its end. *)
Fixpoint try_download (urls : list str) : M net_log (option notebook) :=
  match urls with
  | [] => ret None
  | download_url :: rest =>
      found <-
        try_except
          (resp <- requests_get download_url ;;
           if Z.eqb (status_code resp) 200 then
             try_except
               (fun log =>
                  match decode_reads (body resp) with
                  | Ok nb => (Ok (Some nb), log)
                  | Raise e => (Raise e, log)
                  end)
               (fun _ => ret None)
           else ret None)
          (fun _ => ret None) ;;
      match found with
      | Some nb => ret (Some nb)
      | None => try_download rest
      end
  end.

Definition download_colab_notebook (colab_url : str) : M net_log notebook :=
  let file_id := find_file_id patterns colab_url in
  match file_id with
  | None => raise file_id_error
  | Some id =>
      if negb (truthy id) then raise file_id_error
      else
        found <- try_download (download_urls id) ;;
        match found with
        | Some nb => ret nb
        | None => raise download_error
        end
  end.

End LinkResolver.

(* ================================================================== *)
(** * The script [app.py] *)
(* ================================================================== *)

(** What a run of [app.py] touches: the calls to the service, the
    notebooks written to disk (path and document, oldest first) and the
    lines printed. *)
Record app_world : Type := mkAppWorld {
  app_calls : trace;
  app_written : list (str * notebook);
  app_stdout : list str
}.

Module App.

Section Script.

Variable client : trace -> request -> result (option str).

(** [open(path, 'r')] and [nbformat.read(f, as_version=4)]: the parsed
    notebook, or the exception of the file system or of the parser. *)
Variable read_notebook : str -> result notebook.

(** [open(path, 'w')] and [nbformat.write(nb, f)]: the exception raised,
    if any.  A write that raises leaves no entry in [app_written]. *)
Variable write_error : str -> notebook -> option exn.

(** A computation on the calls, run inside the script. *)
Definition with_calls {A : Type} (m : M trace A) : M app_world A :=
  fun w =>
    match m (app_calls w) with
    | (r, tr) => (r, mkAppWorld tr (app_written w) (app_stdout w))
    end.

(** The first two lines of [extract_cells]: the notebook at a path. *)
Definition read (notebook_path : str) : M app_world notebook :=
  fun w =>
    match read_notebook notebook_path with
    | Ok nb => (Ok nb, w)
    | Raise e => (Raise e, w)
    end.

(** The [with open(output_path, 'w')] block. *)
Definition write (output_path : str) (nb : notebook) : M app_world unit :=
  fun w =>
    match write_error output_path nb with
    | Some e => (Raise e, w)
    | None =>
        (Ok tt,
         mkAppWorld (app_calls w) (app_written w ++ [(output_path, nb)])
           (app_stdout w))
    end.

(** [print(line)] *)
Definition print (line : str) : M app_world unit :=
  fun w =>
    (Ok tt, mkAppWorld (app_calls w) (app_written w) (app_stdout w ++ [line])).

(** [create_documented_notebook(input_path, output_path)] of [app.py]:
    read, the pipeline on the cells read, write, print. *)
Definition create_documented_notebook (input_path output_path : str)
  : M app_world unit :=
  nb <- read input_path ;;
  new_nb <- with_calls (create_documented_notebook client app_py nb) ;;
  written <- write output_path new_nb ;;
  print (lit "Documentation complete. Output saved to: " ++ output_path).

(** [main()], given the value of [os.getenv('GROQ_API_KEY')]. *)
Definition main (api_key : option str) : M app_world unit :=
  match api_key with
  | Some key =>
      if negb (truthy key) then
        raise (ValueError (lit "Please set GROQ_API_KEY environment variable"))
      else
        create_documented_notebook (lit "test2.ipynb")
          (lit "documented_notebook7.ipynb")
  | None =>
      raise (ValueError (lit "Please set GROQ_API_KEY environment variable"))
  end.

End Script.

End App.

(* ================================================================== *)
(** * The script [streamlit_app.py] *)
(* ================================================================== *)

(** The calls of [main] to Streamlit, as a page would log them.  The
    spinner and the progress bar that the pipeline shows while it runs are
    not logged. *)
Inductive ui_event : Type :=
| st_set_page_config (page_title layout : str)
| st_title (text : str)
| st_write (text : str)
| st_expander (label : str)
| st_text_input (label : str) (password : bool)
| st_warning (text : str)
| st_radio (label : str) (options : list str)
| st_file_uploader (label : str) (types : list str)
| st_spinner (text : str)
| st_error (text : str)
| st_button (label : str)
| st_download_button (label data file_name mime : str)
| st_success (text : str)
| st_subheader (text : str)
| st_markdown (text : str)
| st_code (text language : str)
| st_info (text : str).

(** What the widgets return in one run of the script. *)
Record widgets : Type := mkWidgets {
  api_key_input : str;
  input_method : str;
  uploaded_file : option (list N);
  colab_url_input : str;
  generate_clicked : bool
}.

(** What a run of the page touches: the calls to the service, the URLs
    requested and the page itself. *)
Record page_world : Type := mkPageWorld {
  page_calls : trace;
  page_net : net_log;
  page_ui : list ui_event
}.

Module Streamlit.

Section Script.

Variable client : trace -> request -> result (option str).
Variable http : net_log -> str -> result response.
Variable decode_reads : list N -> result notebook.

(** [nbformat.reads(text, as_version=4)] *)
Variable nbformat_reads : str -> result notebook.

(** [nbformat.read(uploaded_file, as_version=4)] *)
Variable nbformat_read : list N -> result notebook.

(** [nbformat.writes(nb)] *)
Variable nbformat_writes : notebook -> result str.

(** [create_documented_notebook(notebook_content)]: the pipeline on the
    notebook passed in, or on the one [extract_cells] parses from the
    string passed in. *)
Definition create_documented_notebook (notebook_content : str + notebook)
  : M trace notebook :=
  match notebook_content with
  | inl text =>
      match nbformat_reads text with
      | Ok nb => create_documented_notebook client streamlit_py nb
      | Raise e => raise e
      end
  | inr nb => create_documented_notebook client streamlit_py nb
  end.

Definition with_calls {A : Type} (m : M trace A) : M page_world A :=
  fun w =>
    match m (page_calls w) with
    | (r, tr) => (r, mkPageWorld tr (page_net w) (page_ui w))
    end.

Definition with_net {A : Type} (m : M net_log A) : M page_world A :=
  fun w =>
    match m (page_net w) with
    | (r, log) => (r, mkPageWorld (page_calls w) log (page_ui w))
    end.

(** One call to Streamlit. *)
Definition st (ev : ui_event) : M page_world unit :=
  fun w => (Ok tt, mkPageWorld (page_calls w) (page_net w) (page_ui w ++ [ev])).

(** The value of a library call that may raise. *)
Definition lift {A : Type} (r : result A) : M page_world A :=
  fun w => (r, w).

(** The text of [st.error] when the download fails. *)
Definition download_failed (e : exn) : str :=
  join nl
  [ lit "Error downloading Colab notebook: " ++ exn_str e
  ; lit "                    "
  ; lit "                    Please ensure:"
  ; lit "                    1. The URL is correct"
  ; lit "                    2. The notebook is shared with 'Anyone with the link'"
  ; lit "                    3. The sharing settings allow viewing" ].

(** The head of the page, up to the input of the key. *)
Definition page_head : M page_world unit :=
  e1 <- st (st_set_page_config (lit "Notebook Documenter") (lit "wide")) ;;
  e2 <- st (st_title ([128218%N] ++ lit " Jupyter Notebook Documenter")) ;;
  e3 <- st (st_write (join nl
    [ []
    ; lit "    This app automatically generates natural documentation for Jupyter notebooks. "
    ; lit "    Upload a notebook file or provide a Google Colab link to get started."
    ; lit "    " ])) ;;
  e4 <- st (st_expander ([128203%N] ++ lit " How to share your Colab notebook")) ;;
  e5 <- st (st_write (join nl
    [ []
    ; lit "        1. Open your Colab notebook"
    ; lit "        2. Click 'Share' in the top-right corner"
    ; lit "        3. Click 'Anyone with the link'"
    ; lit "        4. Make sure 'Viewer' access is selected"
    ; lit "        5. Click 'Copy link'"
    ; lit "        6. Paste the link here"
    ; lit "        "
    ; lit "        The link should look something like:"
    ; lit "        `https://colab.research.google.com/drive/1abc...xyz`"
    ; lit "        " ])) ;;
  st (st_text_input (lit "Enter your Groq API Key:") true).

(** The branch of the input method: the notebook to process, when the
    run has one ([process_notebook] and [notebook_content]). *)
Definition choose_notebook (inp : widgets) : M page_world (option notebook) :=
  if eqb (input_method inp) (lit "Upload Notebook") then
    e1 <- st (st_file_uploader (lit "Choose a notebook file") [lit "ipynb"]) ;;
    match uploaded_file inp with
    | Some file =>
        notebook_content <- lift (nbformat_read file) ;;
        ret (Some notebook_content)
    | None => ret None
    end
  else
    e1 <- st (st_text_input (lit "Enter Google Colab URL:") false) ;;
    if truthy (colab_url_input inp) then
      try_except
        (e2 <- st (st_spinner (lit "Downloading notebook from Colab...")) ;;
         notebook_content <-
           with_net (download_colab_notebook http decode_reads
                       (colab_url_input inp)) ;;
         ret (Some notebook_content))
        (fun e =>
           e3 <- st (st_error (download_failed e)) ;;
           ret None)
    else ret None.

(** The preview: the first five cells, then a note when there are more. *)
Definition preview (documented_nb : notebook) : M page_world unit :=
  e1 <- st (st_subheader (lit "Preview")) ;;
  shown <-
    for_each
      (fun (acc : unit) (c : nbcell) =>
         if eqb (cell_type c) (lit "markdown") then st (st_markdown (source c))
         else st (st_code (source c) (lit "python")))
      (firstn 5 (nb_cells documented_nb)) tt ;;
  if Nat.ltb 5 (List.length (nb_cells documented_nb)) then
    st (st_info (lit "... (Download the notebook to see full documentation)"))
  else ret tt.

(** The body of [if st.button("Generate Documentation"):]. *)
Definition generate (notebook_content : notebook) : M page_world unit :=
  try_except
    (e1 <- st (st_spinner (lit "Generating documentation...")) ;;
     documented_nb <-
       with_calls (create_documented_notebook (inr notebook_content)) ;;
     notebook_str <- lift (nbformat_writes documented_nb) ;;
     e2 <- st (st_download_button (lit "Download Documented Notebook")
                 notebook_str (lit "documented_notebook.ipynb")
                 (lit "application/x-ipynb+json")) ;;
     e3 <- st (st_success (lit "Documentation generated successfully!")) ;;
     preview documented_nb)
    (fun e => st (st_error (lit "Error generating documentation: " ++ exn_str e))).

(** [main()], for the values the widgets return in this run. *)
Definition main (inp : widgets) : M page_world unit :=
  e1 <- page_head ;;
  if negb (truthy (api_key_input inp)) then
    st (st_warning (lit "Please enter your Groq API Key to continue"))
  else
    e2 <- st (st_radio (lit "Choose input method:")
                [lit "Upload Notebook"; lit "Google Colab Link"]) ;;
    try_except
      (found <- choose_notebook inp ;;
       match found with
       | Some notebook_content =>
           e3 <- st (st_button (lit "Generate Documentation")) ;;
           if generate_clicked inp then generate notebook_content
           else ret tt
       | None => ret tt
       end)
      (fun e => st (st_error (lit "An error occurred: " ++ exn_str e))).

End Script.

End Streamlit.

(* ================================================================== *)
(** * Vocabulary of the statements *)
(* ================================================================== *)

(** The cells for which [create_documented_notebook] asks an annotation:
    the guard of the first branch of its loop. *)
Definition annotated (c : cell) : bool :=
  is_code c && truthy (strip (content c)).

(** The cells that reach the output: the two branches of the loop. *)
Definition kept (c : cell) : bool := annotated c || is_markdown c.

(** An input cell rebuilt as a new node with its kind and content only. *)
Definition fresh_copy (c : cell) : nbcell :=
  mkNbcell (type c) (content c) [] [] None.

(** [originals] in order, each preceded by its (possibly empty) run of
    commentary cells. *)
Fixpoint weave (commentary : list (list nbcell)) (originals : list nbcell)
  : list nbcell :=
  match commentary, originals with
  | com :: commentary', o :: originals' => com ++ o :: weave commentary' originals'
  | _, _ => []
  end.

(** A run of commentary before the kept cell [c]: nothing, or a single
    markdown cell before a code cell. *)
Definition commentary_for (c : cell) (com : list nbcell) : Prop :=
  com = [] \/ (is_code c = true /\ exists doc, doc <> [] /\ com = [new_markdown_cell doc]).

(** [nb] with [emitted] appended to its cells. *)
Definition extend (nb : notebook) (emitted : list nbcell) : notebook :=
  mkNotebook (nb_metadata nb) (nb_cells nb ++ emitted).

(** The text a generation call returns for a reply of the service:
    the stripped content, or the error text of its [except] branch. *)
Definition reply_text (on_error : exn -> str) (reply : result (option str))
  : str :=
  match reply with
  | Ok (Some text) => strip text
  | Ok None => on_error AttributeError_strip
  | Raise e => on_error e
  end.

(** The aggregated code context in the words of the specification: the
    content of every code cell, in order, each followed by the separator
    when another code cell comes later. *)
Fixpoint spec_aggregate (sep : str) (cells : list cell) : str :=
  match cells with
  | [] => []
  | c :: rest =>
      if is_code c then
        if existsb is_code rest then content c ++ sep ++ spec_aggregate sep rest
        else content c
      else spec_aggregate sep rest
  end.

(** A blank line between two texts. *)
Definition blank_line : str := nl ++ nl.

(** A notebook stripped of everything but the kind and the source of its
    cells. *)
Definition erase (nb : notebook) : notebook :=
  mkNotebook [] (map fresh_copy (extract_cells nb)).

(** A node that carries nothing but its kind and source. *)
Definition bare (o : nbcell) : Prop :=
  metadata o = [] /\ outputs o = [] /\ execution_count o = None.

(** One attempt of the link resolver: the notebook of a response with
    status 200 whose body parses, nothing otherwise. *)
Definition accepted (http : net_log -> str -> result response)
  (decode_reads : list N -> result notebook) (log : net_log) (url : str)
  : option notebook :=
  match http log url with
  | Ok resp =>
      if Z.eqb (status_code resp) 200 then
        match decode_reads (body resp) with
        | Ok nb => Some nb
        | Raise _ => None
        end
      else None
  | Raise _ => None
  end.

(** [o.cell_type == 'code'] on a node of a notebook. *)
Definition is_code_node (o : nbcell) : bool := eqb (cell_type o) (lit "code").

(** The dictionary [extract_cells] builds for a node. *)
Definition cell_of (o : nbcell) : cell := mkCell (cell_type o) (source o).

(** What one pass of the loop emits for a cell when every annotation call
    returns the text [doc]. *)
Definition emitted_with (doc : str) (c : cell) : list nbcell :=
  if annotated c then
    (if truthy doc then [new_markdown_cell doc] else [])
    ++ [new_code_cell (content c)]
  else if is_markdown c then [new_markdown_cell (content c)]
  else [].

(** What the preview shows for one cell. *)
Definition preview_event (o : nbcell) : ui_event :=
  if eqb (cell_type o) (lit "markdown") then st_markdown (source o)
  else st_code (source o) (lit "python").

(* ================================================================== *)
(** * Sample inputs *)
(* ================================================================== *)

(** The notebook [code:"", code:"x=1", markdown:"note"], with outputs
    and metadata on its cells. *)
Definition sample_notebook : notebook :=
  mkNotebook [(lit "kernelspec", lit "python3")]
    [ mkNbcell (lit "code") [] [] [] None
    ; mkNbcell (lit "code") (lit "x=1") [(lit "tags", lit "setup")] [lit "1"] (Some 7%Z)
    ; mkNbcell (lit "markdown") (lit "note") [] [] None ].

(** A service that answers every call with the same text. *)
Definition constant_client (text : str) : trace -> request -> result (option str) :=
  fun _ _ => Ok (Some text).

(** A service that fails every call with the same error. *)
Definition failing_client (e : exn) : trace -> request -> result (option str) :=
  fun _ _ => Raise e.

(** A network on which the first download URL answers 404 and the second
    answers 200. *)
Definition sample_http : net_log -> str -> result response :=
  fun log _ =>
    match log with
    | [] => Ok (mkResponse 404 [])
    | _ :: _ => Ok (mkResponse 200 (lit "{}"))
    end.

(** A parser that accepts every body as the empty notebook. *)
Definition sample_reads : list N -> result notebook :=
  fun _ => Ok new_notebook.

(** A file system with the sample notebook at every path. *)
Definition sample_read : str -> result notebook := fun _ => Ok sample_notebook.

(** A file system with no readable file. *)
Definition missing_read : str -> result notebook :=
  fun _ => Raise (mkExn (lit "FileNotFoundError") (lit "No such file or directory")).

(** A disk that accepts every write. *)
Definition sample_write : str -> notebook -> option exn := fun _ _ => None.

(** Parsers and a serializer that accept everything. *)
Definition sample_nbformat_reads : str -> result notebook :=
  fun _ => Ok sample_notebook.

Definition sample_nbformat_read : list N -> result notebook :=
  fun _ => Ok sample_notebook.

Definition sample_nbformat_writes : notebook -> result str :=
  fun _ => Ok (lit "{}").

(** A run of the page with no key typed in. *)
Definition widgets_without_key : widgets :=
  mkWidgets [] (lit "Upload Notebook") None [] false.

(** A run of the page with a key, a link with no identifier and no
    click. *)
Definition widgets_with_bad_link : widgets :=
  mkWidgets (lit "gsk") (lit "Google Colab Link") None
    (lit "https://example.com/notebook") false.

(** A run of the page with a key, an uploaded file and a click. *)
Definition widgets_with_upload : widgets :=
  mkWidgets (lit "gsk") (lit "Upload Notebook") (Some []) [] true.

(** A page on which nothing happened yet. *)
Definition empty_page : page_world := mkPageWorld [] [] [].

(* ================================================================== *)
(** * Basic facts *)
(* ================================================================== *)

Lemma eqb_eq (a b : str) : eqb a b = true <-> a = b.
Proof.
  revert b; induction a as [|x a IH]; intros [|y b]; simpl;
    try (split; [discriminate | discriminate]); try tauto.
  rewrite andb_true_iff, N.eqb_eq, IH.
  split; [intros [-> ->]; reflexivity | intros H; inversion H; auto].
Qed.

Lemma truthy_true (s : str) : truthy s = true <-> s <> [].
Proof. destruct s; simpl; split; congruence. Qed.

Lemma truthy_false (s : str) : truthy s = false <-> s = [].
Proof. destruct s; simpl; split; congruence. Qed.

Lemma extend_extend (nb : notebook) (a b : list nbcell) :
  extend (extend nb a) b = extend nb (a ++ b).
Proof. unfold extend; simpl; now rewrite app_assoc. Qed.

Lemma extend_nil (nb : notebook) : extend nb [] = nb.
Proof. destruct nb; unfold extend; simpl; now rewrite app_nil_r. Qed.

Lemma cells_append_extend (nb : notebook) (c : nbcell) :
  cells_append nb c = extend nb [c].
Proof. reflexivity. Qed.

Lemma is_code_fresh_copy (c : cell) :
  is_code c = true -> new_code_cell (content c) = fresh_copy c.
Proof.
  unfold is_code, new_code_cell, fresh_copy; intros H.
  apply eqb_eq in H; now rewrite H.
Qed.

Lemma is_markdown_fresh_copy (c : cell) :
  is_markdown c = true -> new_markdown_cell (content c) = fresh_copy c.
Proof.
  unfold is_markdown, new_markdown_cell, fresh_copy; intros H.
  apply eqb_eq in H; now rewrite H.
Qed.

(** The loop over a concatenation runs the first part, then the second
    from the state the first part left. *)
Lemma for_each_app {S A B : Type} (body : B -> A -> M S B) (xs ys : list A) :
  forall (acc : B) (s : S),
    for_each body (xs ++ ys) acc s =
      match for_each body xs acc s with
      | (Ok acc', s') => for_each body ys acc' s'
      | (Raise e, s') => (Raise e, s')
      end.
Proof.
  induction xs as [|x xs IH]; intros acc s; simpl.
  - reflexivity.
  - unfold bind. destruct (body acc x s) as [[acc'|e] s']; [apply IH | reflexivity].
Qed.

Section PipelineFacts.

Variable client : trace -> request -> result (option str).

(** The overview generator always returns a text and logs one call. *)
Lemma get_notebook_overview_run (ep : entry_point) (cells : list cell) (tr : trace) :
  get_notebook_overview client ep cells tr =
    (Ok (reply_text (overview_error ep) (client tr (overview_request ep cells))),
     tr ++ [overview_request ep cells]).
Proof.
  unfold get_notebook_overview, try_except, bind, chat_completions_create.
  destruct (client tr (overview_request ep cells)) as [[text|]|e]; reflexivity.
Qed.

(** The annotator, past its guard, returns a text and logs one call. *)
Lemma generate_cell_doc_run (ep : entry_point) (c ctx : str) (tr : trace) :
  ep = app_py \/ truthy (strip c) = true ->
  generate_cell_doc client ep c ctx tr =
    (Ok (reply_text (cell_error ep) (client tr (cell_request ep c ctx))),
     tr ++ [cell_request ep c ctx]).
Proof.
  intros H. unfold generate_cell_doc.
  assert (E : try_except
           (response <- chat_completions_create client (cell_request ep c ctx) ;;
            content_strip response)
           (fun e => ret (cell_error ep e)) tr =
         (Ok (reply_text (cell_error ep) (client tr (cell_request ep c ctx))),
          tr ++ [cell_request ep c ctx])).
  { unfold try_except, bind, chat_completions_create.
    destruct (client tr (cell_request ep c ctx)) as [[text|]|e]; reflexivity. }
  destruct ep; [exact E|].
  destruct H as [H|H]; [discriminate|]. rewrite H; simpl. exact E.
Qed.

(** One iteration on a cell that is annotated. *)
Lemma process_cell_annotated (ep : entry_point) (ctx : str) (c : cell)
  (acc : notebook) (tr : trace) :
  annotated c = true ->
  process_cell client ep ctx acc c tr =
    (let doc := reply_text (cell_error ep)
                  (client tr (cell_request ep (content c) ctx)) in
     (Ok (extend acc ((if truthy doc then [new_markdown_cell doc] else [])
                      ++ [new_code_cell (content c)])),
      tr ++ [cell_request ep (content c) ctx])).
Proof.
  intros H. unfold process_cell. fold (annotated c). rewrite H.
  unfold annotated in H. apply andb_true_iff in H as [_ H].
  unfold bind. rewrite generate_cell_doc_run by (now right).
  cbv zeta. unfold ret.
  destruct (truthy (reply_text _ _));
    rewrite !cells_append_extend, ?extend_extend; reflexivity.
Qed.

(** One iteration on a cell that is not annotated. *)
Lemma process_cell_not_annotated (ep : entry_point) (ctx : str) (c : cell)
  (acc : notebook) (tr : trace) :
  annotated c = false ->
  process_cell client ep ctx acc c tr =
    (Ok (if is_markdown c then extend acc [new_markdown_cell (content c)]
         else acc), tr).
Proof.
  intros H. unfold process_cell. fold (annotated c). rewrite H.
  destruct (is_markdown c); reflexivity.
Qed.

(** The loop: what it appends and which calls it issues, from any
    notebook under construction. *)
Lemma for_each_process_cell (ep : entry_point) (ctx : str) (cells : list cell) :
  forall tr : trace, exists commentary : list (list nbcell),
    Forall2 commentary_for (filter kept cells) commentary /\
    forall acc : notebook,
      for_each (process_cell client ep ctx) cells acc tr =
        (Ok (extend acc (weave commentary (map fresh_copy (filter kept cells)))),
         tr ++ map (fun c => cell_request ep (content c) ctx)
                   (filter annotated cells)).
Proof.
  induction cells as [|c cells IH]; intros tr.
  - exists []. split; [constructor|]. intros acc; simpl.
    now rewrite extend_nil, app_nil_r.
  - destruct (annotated c) eqn:Ha; [|destruct (is_markdown c) eqn:Hm].
    + assert (Hk : kept c = true) by (unfold kept; now rewrite Ha).
      assert (Hc : is_code c = true)
        by (unfold annotated in Ha; now apply andb_true_iff in Ha).
      destruct (IH (tr ++ [cell_request ep (content c) ctx])) as (com & HF & Hrun).
      set (doc := reply_text (cell_error ep)
                    (client tr (cell_request ep (content c) ctx))).
      exists ((if truthy doc then [new_markdown_cell doc] else []) :: com).
      cbn [filter]. rewrite Ha, Hk. split.
      * constructor; [|exact HF].
        destruct (truthy doc) eqn:Hd; [right|now left].
        split; [exact Hc|]. exists doc. split; [now apply truthy_true|reflexivity].
      * intros acc. cbn [for_each map weave]. unfold bind.
        rewrite process_cell_annotated by exact Ha.
        cbv beta iota zeta. fold doc. rewrite Hrun, extend_extend.
        rewrite <- (is_code_fresh_copy c Hc), <- !app_assoc. reflexivity.
    + assert (Hk : kept c = true) by (unfold kept; now rewrite Ha, Hm).
      destruct (IH tr) as (com & HF & Hrun).
      exists ([] :: com). cbn [filter]. rewrite Ha, Hk. split.
      * constructor; [now left|exact HF].
      * intros acc. cbn [for_each map weave]. unfold bind.
        rewrite process_cell_not_annotated by exact Ha.
        rewrite Hm, Hrun, extend_extend.
        now rewrite (is_markdown_fresh_copy c Hm).
    + assert (Hk : kept c = false) by (unfold kept; now rewrite Ha, Hm).
      destruct (IH tr) as (com & HF & Hrun).
      exists com. cbn [filter]. rewrite Ha, Hk. split; [exact HF|].
      intros acc. cbn [for_each]. unfold bind.
      rewrite process_cell_not_annotated by exact Ha.
      now rewrite Hm, Hrun.
Qed.

(** The whole run: its result and its calls. *)
Lemma create_documented_notebook_run (ep : entry_point) (nb : notebook) (tr : trace) :
  exists commentary : list (list nbcell),
    Forall2 commentary_for (filter kept (extract_cells nb)) commentary /\
    create_documented_notebook client ep nb tr =
      (Ok (mkNotebook []
             (new_markdown_cell
                (reply_text (overview_error ep)
                   (client tr (overview_request ep (extract_cells nb))))
              :: weave commentary
                   (map fresh_copy (filter kept (extract_cells nb))))),
       tr ++ overview_request ep (extract_cells nb)
          :: map (fun c => cell_request ep (content c)
                             (full_context (extract_cells nb)))
                 (filter annotated (extract_cells nb))).
Proof.
  destruct (for_each_process_cell ep (full_context (extract_cells nb))
              (extract_cells nb)
              (tr ++ [overview_request ep (extract_cells nb)]))
    as (com & HF & Hrun).
  exists com. split; [exact HF|].
  unfold create_documented_notebook, bind.
  rewrite get_notebook_overview_run, Hrun, <- app_assoc. reflexivity.
Qed.

End PipelineFacts.

(* ================================================================== *)
(** * What reaches the output document *)
(* ================================================================== *)

(** C1, as stated, fails: on [code:"", code:"x=1", markdown:"note"] both
    entry points drop the empty code cell; the output holds the overview,
    the annotation of [x=1], [x=1] and the note, and no empty code cell. *)
Lemma empty_code_cell_is_dropped :
  (exists tr,
      create_documented_notebook (constant_client (lit "Sets x")) app_py
        sample_notebook [] =
      (Ok (mkNotebook []
             [ new_markdown_cell (lit "Sets x")
             ; new_markdown_cell (lit "Sets x")
             ; new_code_cell (lit "x=1")
             ; new_markdown_cell (lit "note") ]), tr)
      /\ List.length tr = 2)
  /\ (exists tr,
      create_documented_notebook (constant_client (lit "Sets x")) streamlit_py
        sample_notebook [] =
      (Ok (mkNotebook []
             [ new_markdown_cell (lit "Sets x")
             ; new_markdown_cell (lit "Sets x")
             ; new_code_cell (lit "x=1")
             ; new_markdown_cell (lit "note") ]), tr)
      /\ List.length tr = 2)
  /\ In (mkCell (lit "code") []) (extract_cells sample_notebook)
  /\ ~ In (new_code_cell [])
          [ new_markdown_cell (lit "Sets x")
          ; new_markdown_cell (lit "Sets x")
          ; new_code_cell (lit "x=1")
          ; new_markdown_cell (lit "note") ].
Proof.
  split; [|split; [|split]].
  - eexists; split; [vm_compute; reflexivity | reflexivity].
  - eexists; split; [vm_compute; reflexivity | reflexivity].
  - left; reflexivity.
  - intros H; simpl in H; repeat destruct H as [H|H]; try discriminate H; exact H.
Qed.

(** C1 (amended): every markdown cell and every code cell whose content is
    not empty after trimming appears in the output, by kind and content, in
    its original relative order after the overview cell: the output is the
    overview cell followed by those cells, each preceded by at most one
    commentary cell (none before a markdown cell).  The other cells (code
    cells that are empty after trimming, cells of another kind) are left
    out, and no call is made for them: the calls of the run are the
    overview call and one call per annotated cell. *)
Theorem kept_cells_appear_in_order :
  forall (client : trace -> request -> result (option str))
         (ep : entry_point) (nb : notebook) (tr : trace),
  exists (out : notebook) (tr' : trace) (overview : str)
         (commentary : list (list nbcell)),
    create_documented_notebook client ep nb tr = (Ok out, tr')
    /\ nb_cells out =
         new_markdown_cell overview
         :: weave commentary (map fresh_copy (filter kept (extract_cells nb)))
    /\ Forall2 commentary_for (filter kept (extract_cells nb)) commentary
    /\ tr' = tr ++ overview_request ep (extract_cells nb)
                :: map (fun c => cell_request ep (content c)
                                   (full_context (extract_cells nb)))
                       (filter annotated (extract_cells nb)).
Proof.
  intros client ep nb tr.
  destruct (create_documented_notebook_run client ep nb tr) as (com & HF & Hrun).
  eexists _, _, _, com. rewrite Hrun.
  split; [reflexivity|]. split; [reflexivity|]. split; [exact HF|reflexivity].
Qed.

(** C3, as stated, fails: when the service answers the overview call with
    an empty or whitespace-only text, the first cell of the output is an
    empty markdown cell, in both entry points. *)
Lemma overview_cell_can_be_empty :
  (exists tr,
      create_documented_notebook (constant_client (lit "  ")) app_py
        sample_notebook [] =
      (Ok (mkNotebook []
             [ new_markdown_cell []
             ; new_code_cell (lit "x=1")
             ; new_markdown_cell (lit "note") ]), tr))
  /\ (exists tr,
      create_documented_notebook (constant_client []) streamlit_py
        (mkNotebook [] []) [] =
      (Ok (mkNotebook [] [ new_markdown_cell [] ]), tr))
  /\ source (new_markdown_cell []) = [].
Proof.
  split; [|split].
  - eexists; vm_compute; reflexivity.
  - eexists; vm_compute; reflexivity.
  - reflexivity.
Qed.

(** C3 (amended): the first cell of the output is a markdown cell holding
    the overview, emitted once: what follows it is what the loop over the
    cells emits.  The overview is the trimmed reply of the service, or the
    error text of the entry point when the call fails; the error text is
    never empty, so the overview is empty exactly when the service answers
    with a text that is empty after trimming. *)
Theorem first_cell_is_the_overview :
  forall (client : trace -> request -> result (option str))
         (ep : entry_point) (nb : notebook) (tr : trace),
  exists (overview : str) (rest : list nbcell) (tr' : trace),
    create_documented_notebook client ep nb tr =
      (Ok (mkNotebook [] (new_markdown_cell overview :: rest)), tr')
    /\ cell_type (new_markdown_cell overview) = lit "markdown"
    /\ overview =
         reply_text (overview_error ep)
           (client tr (overview_request ep (extract_cells nb)))
    /\ for_each (process_cell client ep (full_context (extract_cells nb)))
         (extract_cells nb) new_notebook
         (tr ++ [overview_request ep (extract_cells nb)]) =
       (Ok (mkNotebook [] rest), tr')
    /\ (forall e : exn, overview_error ep e <> [])
    /\ (overview = [] <->
        exists text, client tr (overview_request ep (extract_cells nb))
                     = Ok (Some text) /\ strip text = []).
Proof.
  intros client ep nb tr.
  destruct (for_each_process_cell client ep (full_context (extract_cells nb))
              (extract_cells nb)
              (tr ++ [overview_request ep (extract_cells nb)]))
    as (com & HF & Hrun).
  assert (Hne : forall e : exn, overview_error ep e <> [])
    by (intros e; destruct ep; discriminate).
  eexists _, _, _. split; [|split; [|split; [|split; [|split]]]].
  - unfold create_documented_notebook, bind.
    rewrite get_notebook_overview_run, Hrun. reflexivity.
  - reflexivity.
  - reflexivity.
  - rewrite Hrun. reflexivity.
  - exact Hne.
  - destruct (client tr (overview_request ep (extract_cells nb)))
      as [[text|]|e]; simpl.
    + split; [intros H; exists text; auto | intros (t & Ht & Hs)].
      now inversion Ht; subst.
    + split; [intros H; now apply Hne in H | intros (t & Ht & _); discriminate].
    + split; [intros H; now apply Hne in H | intros (t & Ht & _); discriminate].
Qed.

(* ================================================================== *)
(** * Calls to the completion service *)
(* ================================================================== *)

(** C8: one run issues the overview call first and then one call per code
    cell whose content is not empty after trimming, in the order of the
    cells: [1 + n] calls in all. *)
Theorem calls_of_one_run :
  forall (client : trace -> request -> result (option str))
         (ep : entry_point) (nb : notebook) (tr : trace),
    snd (create_documented_notebook client ep nb tr) =
      tr ++ overview_request ep (extract_cells nb)
         :: map (fun c => cell_request ep (content c)
                            (full_context (extract_cells nb)))
                (filter annotated (extract_cells nb))
    /\ List.length (snd (create_documented_notebook client ep nb tr)) =
       List.length tr
       + (1 + List.length
                (filter (fun c => is_code c && truthy (strip (content c)))
                        (extract_cells nb))).
Proof.
  intros client ep nb tr.
  destruct (create_documented_notebook_run client ep nb tr) as (com & _ & Hrun).
  rewrite Hrun; cbn [snd]. split; [reflexivity|].
  rewrite length_app; cbn [List.length]. rewrite length_map. reflexivity.
Qed.

(** C6: both generation calls turn every exception of the client into a
    returned text: they always end in a value, and when the call raises
    [e] the value is the error text for [e].  A run always ends in a
    notebook, and issues all its per-cell calls whatever the overview call
    or any other call answered. *)
Theorem generation_errors_are_returned_as_text :
  forall (client : trace -> request -> result (option str)) (ep : entry_point),
    (forall (cells : list cell) (tr : trace),
        exists text,
          get_notebook_overview client ep cells tr =
            (Ok text, tr ++ [overview_request ep cells])
          /\ (forall e, client tr (overview_request ep cells) = Raise e ->
                        text = overview_error ep e))
    /\ (forall (c ctx : str) (tr : trace),
        exists text tr',
          generate_cell_doc client ep c ctx tr = (Ok text, tr')
          /\ (forall e, tr' = tr ++ [cell_request ep c ctx] ->
                        client tr (cell_request ep c ctx) = Raise e ->
                        text = cell_error ep e))
    /\ (forall (nb : notebook) (tr : trace),
        exists out,
          create_documented_notebook client ep nb tr =
            (Ok out,
             tr ++ overview_request ep (extract_cells nb)
                :: map (fun c => cell_request ep (content c)
                                   (full_context (extract_cells nb)))
                       (filter annotated (extract_cells nb)))).
Proof.
  intros client ep. split; [|split].
  - intros cells tr. eexists. rewrite get_notebook_overview_run.
    split; [reflexivity|]. intros e He. now rewrite He.
  - intros c ctx tr.
    destruct (truthy (strip c)) eqn:Hs.
    + eexists _, _. rewrite generate_cell_doc_run by (now right).
      split; [reflexivity|]. intros e _ He. now rewrite He.
    + destruct ep.
      * eexists _, _. rewrite generate_cell_doc_run by (now left).
        split; [reflexivity|]. intros e _ He. now rewrite He.
      * exists [], tr. unfold generate_cell_doc. rewrite Hs. simpl.
        split; [reflexivity|]. intros e Htr _. exfalso.
        apply (f_equal (@List.length request)) in Htr.
        rewrite length_app in Htr. simpl in Htr. lia.
  - intros nb tr.
    destruct (create_documented_notebook_run client ep nb tr) as (com & _ & Hrun).
    eexists. exact Hrun.
Qed.

(* ================================================================== *)
(** * What is carried from the input cells *)
(* ================================================================== *)

Lemma extract_cells_erase (nb : notebook) :
  extract_cells (erase nb) = extract_cells nb.
Proof.
  unfold erase, extract_cells at 1; simpl.
  rewrite map_map. rewrite <- (map_id (extract_cells nb)) at 2.
  apply map_ext. intros [t s]; reflexivity.
Qed.

Lemma weave_Forall (P : nbcell -> Prop) (cs : list cell) :
  forall coms : list (list nbcell),
    Forall2 commentary_for cs coms ->
    Forall (fun c => P (fresh_copy c)) cs ->
    (forall doc, P (new_markdown_cell doc)) ->
    Forall P (weave coms (map fresh_copy cs)).
Proof.
  intros coms HF; induction HF as [|c com cs coms Hc HF IH]; intros Hcs Hmd.
  - constructor.
  - inversion Hcs as [|? ? Hpc Hrest]; subst. simpl.
    apply Forall_app; split.
    + destruct Hc as [->|(_ & doc & _ & ->)]; [constructor|].
      constructor; [apply Hmd|constructor].
    + constructor; [exact Hpc|apply IH; assumption].
Qed.

(** A kept cell is rebuilt by one of the two constructors of nbformat. *)
Lemma kept_fresh_copy (c : cell) :
  kept c = true ->
  fresh_copy c = new_code_cell (content c)
  \/ fresh_copy c = new_markdown_cell (content c).
Proof.
  unfold kept, annotated. intros H.
  apply orb_true_iff in H as [H|H].
  - apply andb_true_iff in H as [H _]. left. symmetry. now apply is_code_fresh_copy.
  - right. symmetry. now apply is_markdown_fresh_copy.
Qed.

(** C10: the run reads nothing of the input but the kind and the source of
    its cells (it gives the same result on the notebook with outputs,
    execution counts and metadata erased), and every cell of the output is
    a new cell built by [new_markdown_cell] or [new_code_cell] from a
    source text, with no metadata, outputs or execution count. *)
Theorem only_kind_and_source_are_carried :
  forall (client : trace -> request -> result (option str))
         (ep : entry_point) (nb : notebook) (tr : trace),
    create_documented_notebook client ep nb tr =
      create_documented_notebook client ep (erase nb) tr
    /\ exists (out : notebook) (tr' : trace),
         create_documented_notebook client ep nb tr = (Ok out, tr')
         /\ nb_metadata out = []
         /\ Forall bare (nb_cells out)
         /\ Forall (fun o => o = new_markdown_cell (source o)
                             \/ o = new_code_cell (source o))
                   (nb_cells out).
Proof.
  intros client ep nb tr. split.
  - unfold create_documented_notebook. now rewrite extract_cells_erase.
  - destruct (create_documented_notebook_run client ep nb tr) as (com & HF & Hrun).
    assert (Hk : Forall (fun c => kept c = true) (filter kept (extract_cells nb)))
      by (apply Forall_forall; intros c Hc; now apply filter_In in Hc).
    eexists _, _. split; [exact Hrun|]. cbn [nb_metadata nb_cells].
    split; [reflexivity|]. split.
    + constructor; [repeat split|].
      apply weave_Forall; [exact HF| |intros doc; repeat split].
      apply Forall_forall; intros c _; repeat split.
    + constructor; [now left|].
      apply weave_Forall; [exact HF| |intros doc; now left].
      eapply Forall_impl; [|exact Hk]. intros c Hc; cbv beta in Hc.
      destruct (kept_fresh_copy c Hc) as [E|E]; rewrite E; [right|left]; reflexivity.
Qed.

(* ================================================================== *)
(** * The aggregated code context *)
(* ================================================================== *)

Lemma join_cons (sep p : str) (rest : list str) :
  join sep (p :: rest) =
    match rest with
    | [] => p
    | _ :: _ => p ++ sep ++ join sep rest
    end.
Proof. destruct rest; reflexivity. Qed.

Lemma code_contents_nil (cells : list cell) :
  existsb is_code cells = false -> code_contents cells = [].
Proof.
  unfold code_contents. induction cells as [|c cells IH]; simpl; [reflexivity|].
  intros H. apply orb_false_iff in H as [Hc H]. rewrite Hc. now apply IH.
Qed.

Lemma code_contents_cons (cells : list cell) :
  existsb is_code cells = true ->
  exists p rest, code_contents cells = p :: rest.
Proof.
  unfold code_contents. induction cells as [|c cells IH]; simpl; [discriminate|].
  destruct (is_code c); simpl; intros H; [eauto | now apply IH].
Qed.

(** Joining the contents of the code cells is the aggregation of the
    specification, for any separator. *)
Lemma join_code_contents (sep : str) (cells : list cell) :
  join sep (code_contents cells) = spec_aggregate sep cells.
Proof.
  induction cells as [|c cells IH]; [reflexivity|].
  unfold code_contents in *. cbn [filter spec_aggregate].
  destruct (is_code c); [|exact IH].
  cbn [map]. rewrite join_cons.
  destruct (existsb is_code cells) eqn:He.
  - destruct (code_contents_cons cells He) as (p & rest & E).
    unfold code_contents in E. rewrite <- IH, E. reflexivity.
  - apply code_contents_nil in He. unfold code_contents in He. now rewrite He.
Qed.

(** C5, as stated, fails for the context of the overview call: its code
    cells are joined by a single newline, with no blank line between. *)
Lemma overview_context_has_no_blank_line :
  all_code [mkCell (lit "code") (lit "a"); mkCell (lit "code") (lit "b")]
    = lit "a" ++ nl ++ lit "b"
  /\ spec_aggregate blank_line
       [mkCell (lit "code") (lit "a"); mkCell (lit "code") (lit "b")]
     = lit "a" ++ nl ++ nl ++ lit "b"
  /\ all_code [mkCell (lit "code") (lit "a"); mkCell (lit "code") (lit "b")]
     <> spec_aggregate blank_line
          [mkCell (lit "code") (lit "a"); mkCell (lit "code") (lit "b")].
Proof.
  split; [reflexivity|]. split; [reflexivity|]. vm_compute. discriminate.
Qed.

(** C5 (amended): both context strings hold the content of every code
    cell, in order, a cell with empty code contributing the empty string;
    the context of the per-cell calls joins them by a blank line, the
    context of the overview call by a single newline.  These are the texts
    placed in the prompts of the calls. *)
Theorem context_strings :
  forall (cells : list cell),
    full_context cells = spec_aggregate blank_line cells
    /\ all_code cells = spec_aggregate nl cells
    /\ (forall ep,
          messages (overview_request ep cells) =
            [ mkMessage (lit "user")
                (overview_prompt ep (spec_aggregate nl cells)) ])
    /\ (forall ep cell_content,
          messages (cell_request ep cell_content (full_context cells)) =
            [ mkMessage (lit "user")
                (cell_prompt ep cell_content
                   (spec_aggregate blank_line cells)) ]).
Proof.
  intros cells.
  assert (H1 : full_context cells = spec_aggregate blank_line cells)
    by apply join_code_contents.
  assert (H2 : all_code cells = spec_aggregate nl cells)
    by apply join_code_contents.
  split; [exact H1|]. split; [exact H2|]. split.
  - intros ep. unfold overview_request; cbn [messages]. now rewrite H2.
  - intros ep cc. unfold cell_request; cbn [messages]. now rewrite H1.
Qed.

(* ================================================================== *)
(** * Error texts *)
(* ================================================================== *)

Lemma rstrip_last (s : str) (b : N) :
  isspace b = false -> rstrip (s ++ [b]) = s ++ [b].
Proof.
  intros Hb. unfold rstrip. rewrite rev_app_distr. simpl. rewrite Hb.
  simpl. now rewrite rev_involutive.
Qed.

(** Trimming leaves a text alone when neither end is a whitespace. *)
Lemma strip_ends (s : str) :
  (exists a t, s = a :: t /\ isspace a = false) ->
  (exists t b, s = t ++ [b] /\ isspace b = false) ->
  strip s = s.
Proof.
  intros (a & t & -> & Ha) (t' & b & E & Hb).
  unfold strip. simpl. rewrite Ha, E. now apply rstrip_last.
Qed.

Lemma strip_cell_error (ep : entry_point) (e : exn) :
  strip (cell_error ep e) = cell_error ep e.
Proof.
  destruct ep; [reflexivity|].
  apply strip_ends.
  - exists 42%N, (lit "Error generating documentation: " ++ exn_str e ++ lit "*").
    split; reflexivity.
  - exists (lit "*Error generating documentation: " ++ exn_str e), 42%N.
    split; [|reflexivity]. unfold cell_error. now rewrite <- app_assoc.
Qed.

(** C7, as stated, fails twice.  In [streamlit_app.py] the text returned
    for a failed annotation call changes with the error; and in both
    scripts a reply of the service that reads like the error text gives
    the very text a failure gives. *)
Lemma annotation_error_text_varies :
  fst (generate_cell_doc
         (failing_client (mkExn (lit "APIConnectionError") (lit "Connection error.")))
         streamlit_py (lit "x=1") (lit "x=1") [])
    = Ok (lit "*Error generating documentation: Connection error.*")
  /\ fst (generate_cell_doc
            (failing_client (mkExn (lit "RateLimitError") (lit "Rate limit reached")))
            streamlit_py (lit "x=1") (lit "x=1") [])
     = Ok (lit "*Error generating documentation: Rate limit reached*")
  /\ lit "*Error generating documentation: Connection error.*"
     <> lit "*Error generating documentation: Rate limit reached*"
  /\ fst (generate_cell_doc
            (constant_client (lit "*Error generating documentation*"))
            app_py (lit "x=1") (lit "x=1") [])
     = fst (generate_cell_doc
              (failing_client (mkExn (lit "APIConnectionError") (lit "Connection error.")))
              app_py (lit "x=1") (lit "x=1") []).
Proof.
  split; [reflexivity|]. split; [reflexivity|]. split; [|reflexivity].
  vm_compute. discriminate.
Qed.

(** C7 (amended): on a failed generation call the returned text is the
    error text of the entry point, a function of the message of the error
    alone.  In [app.py] both error texts are fixed strings: the heading
    with the overview marker, and the documentation marker.  In
    [streamlit_app.py] both embed [str(e)] between a fixed prefix and a
    closing [*].  Nothing tells an error text from generated content: a
    reply of the service equal to the error text yields the same result. *)
Theorem failure_texts :
  forall (client : trace -> request -> result (option str)) (ep : entry_point),
    (forall cells tr e,
        client tr (overview_request ep cells) = Raise e ->
        fst (get_notebook_overview client ep cells tr) = Ok (overview_error ep e))
    /\ (forall c ctx tr e,
        truthy (strip c) = true ->
        client tr (cell_request ep c ctx) = Raise e ->
        fst (generate_cell_doc client ep c ctx tr) = Ok (cell_error ep e))
    /\ (forall e,
        overview_error app_py e =
          lit "# Jupyter Notebook Documentation" ++ nl ++ nl
          ++ lit "*Error generating overview*"
        /\ cell_error app_py e = lit "*Error generating documentation*")
    /\ (forall e,
        overview_error streamlit_py e =
          lit "# Jupyter Notebook Documentation" ++ nl ++ nl
          ++ lit "*Error generating overview: " ++ exn_str e ++ lit "*"
        /\ cell_error streamlit_py e =
           lit "*Error generating documentation: " ++ exn_str e ++ lit "*")
    /\ (forall e1 e2,
        exn_str e1 = exn_str e2 ->
        overview_error ep e1 = overview_error ep e2
        /\ cell_error ep e1 = cell_error ep e2)
    /\ (forall e c ctx tr,
        truthy (strip c) = true ->
        fst (generate_cell_doc (constant_client (cell_error ep e)) ep c ctx tr)
          = Ok (cell_error ep e)).
Proof.
  intros client ep. repeat split.
  - intros cells tr e He. rewrite get_notebook_overview_run, He. reflexivity.
  - intros c ctx tr e Hc He.
    rewrite generate_cell_doc_run by (now right). rewrite He. reflexivity.
  - destruct ep; simpl; [reflexivity | now rewrite H].
  - destruct ep; simpl; [reflexivity | now rewrite H].
  - intros e c ctx tr Hc.
    rewrite generate_cell_doc_run by (now right).
    unfold constant_client; simpl. now rewrite strip_cell_error.
Qed.

(* ================================================================== *)
(** * The guard of the annotator *)
(* ================================================================== *)

(** C4 holds in [streamlit_app.py] and fails in [app.py]: the annotator
    of [streamlit_app.py] returns the empty string for a cell that is
    empty after trimming and calls nothing; the annotator of [app.py] has
    no such guard, and on the cell ["  "] it calls the service and returns
    its reply. *)
Theorem annotator_guard_only_in_streamlit :
  (forall (client : trace -> request -> result (option str))
          (c ctx : str) (tr : trace),
      strip c = [] ->
      generate_cell_doc client streamlit_py c ctx tr = (Ok [], tr))
  /\ strip (lit "  ") = []
  /\ generate_cell_doc (constant_client (lit "Imports pandas")) app_py
       (lit "  ") [] []
     = (Ok (lit "Imports pandas"), [cell_request app_py (lit "  ") []]).
Proof.
  split; [|split; reflexivity].
  intros client c ctx tr H. unfold generate_cell_doc. now rewrite H.
Qed.

(* ================================================================== *)
(** * Commentary cells *)
(* ================================================================== *)

(** C2: when the loop reaches a code cell [c] whose content is not empty
    after trimming, it calls the annotator once; if the returned text
    [doc] is not empty the output continues with one markdown cell holding
    [doc] and then the code cell, and if [doc] is empty it continues with
    the code cell alone. *)
Theorem commentary_iff_annotation_not_empty :
  forall (client : trace -> request -> result (option str))
         (ep : entry_point) (nb : notebook)
         (pre : list cell) (c : cell) (post : list cell) (tr : trace),
    extract_cells nb = pre ++ c :: post ->
    is_code c = true ->
    strip (content c) <> [] ->
    exists (before : notebook) (tr_c : trace) (doc : str)
           (after : list nbcell) (out : notebook) (tr' : trace),
      (overview <- get_notebook_overview client ep (extract_cells nb) ;;
       for_each (process_cell client ep (full_context (extract_cells nb))) pre
         (cells_append new_notebook (new_markdown_cell overview))) tr
        = (Ok before, tr_c)
      /\ generate_cell_doc client ep (content c)
           (full_context (extract_cells nb)) tr_c
         = (Ok doc,
            tr_c ++ [cell_request ep (content c) (full_context (extract_cells nb))])
      /\ create_documented_notebook client ep nb tr = (Ok out, tr')
      /\ (doc <> [] ->
          nb_cells out =
            nb_cells before
            ++ new_markdown_cell doc :: new_code_cell (content c) :: after)
      /\ (doc = [] ->
          nb_cells out =
            nb_cells before ++ new_code_cell (content c) :: after).
Proof.
  intros client ep nb pre c post tr Hsplit Hcode Hne.
  assert (Ht : truthy (strip (content c)) = true) by now apply truthy_true.
  assert (Ha : annotated c = true) by (unfold annotated; now rewrite Hcode, Ht).
  unfold create_documented_notebook, bind.
  rewrite get_notebook_overview_run.
  remember (full_context (extract_cells nb)) as ctx eqn:Ectx.
  remember (tr ++ [overview_request ep (extract_cells nb)]) as tr1 eqn:Etr1.
  remember (reply_text (overview_error ep)
              (client tr (overview_request ep (extract_cells nb)))) as ov eqn:Eov.
  rewrite Hsplit, for_each_app.
  destruct (for_each_process_cell client ep ctx pre tr1) as (com1 & _ & Hpre).
  rewrite !Hpre.
  remember (tr1 ++ map (fun c0 => cell_request ep (content c0) ctx)
                       (filter annotated pre)) as tr_c eqn:Etrc.
  set (doc := reply_text (cell_error ep)
                (client tr_c (cell_request ep (content c) ctx))).
  destruct (for_each_process_cell client ep ctx post
              (tr_c ++ [cell_request ep (content c) ctx])) as (com2 & _ & Hpost).
  cbn [for_each]. unfold bind.
  rewrite process_cell_annotated by exact Ha.
  cbv beta iota zeta. fold doc. rewrite Hpost.
  eexists _, tr_c, doc, _, _, _.
  split; [reflexivity|]. split; [apply generate_cell_doc_run; now right|].
  split; [reflexivity|]. split.
  - intros Hd. apply truthy_true in Hd. rewrite Hd.
    cbn [nb_cells extend]. rewrite <- !app_assoc. reflexivity.
  - intros Hd. apply truthy_false in Hd. rewrite Hd.
    cbn [nb_cells extend]. rewrite <- !app_assoc. reflexivity.
Qed.

(** C2 at the notebook [code:"", code:"x=1", markdown:"note"], for the
    cell [x=1] and a service that answers every call with the same text. *)
Lemma commentary_iff_annotation_not_empty_sample :
  exists (before : notebook) (tr_c : trace) (doc : str)
         (after : list nbcell) (out : notebook) (tr' : trace),
    (overview <- get_notebook_overview (constant_client (lit "Sets x")) app_py
                   (extract_cells sample_notebook) ;;
     for_each (process_cell (constant_client (lit "Sets x")) app_py
                 (full_context (extract_cells sample_notebook)))
       [mkCell (lit "code") []]
       (cells_append new_notebook (new_markdown_cell overview))) []
      = (Ok before, tr_c)
    /\ generate_cell_doc (constant_client (lit "Sets x")) app_py
         (content (mkCell (lit "code") (lit "x=1")))
         (full_context (extract_cells sample_notebook)) tr_c
       = (Ok doc,
          tr_c ++ [cell_request app_py (content (mkCell (lit "code") (lit "x=1")))
                     (full_context (extract_cells sample_notebook))])
    /\ create_documented_notebook (constant_client (lit "Sets x")) app_py
         sample_notebook [] = (Ok out, tr')
    /\ (doc <> [] ->
        nb_cells out =
          nb_cells before
          ++ new_markdown_cell doc
             :: new_code_cell (content (mkCell (lit "code") (lit "x=1"))) :: after)
    /\ (doc = [] ->
        nb_cells out =
          nb_cells before
          ++ new_code_cell (content (mkCell (lit "code") (lit "x=1"))) :: after).
Proof.
  apply (commentary_iff_annotation_not_empty
           (constant_client (lit "Sets x")) app_py sample_notebook
           [mkCell (lit "code") []] (mkCell (lit "code") (lit "x=1"))
           [mkCell (lit "markdown") (lit "note")] []).
  - reflexivity.
  - reflexivity.
  - vm_compute. discriminate.
Defined.

(* ================================================================== *)
(** * Link resolution *)
(* ================================================================== *)

Lemma find_file_id_none (ps : list pattern) (url : str) :
  Forall (fun p => re_search p url = None) ps -> find_file_id ps url = None.
Proof.
  induction 1 as [|p ps Hp _ IH]; simpl; [reflexivity|]. now rewrite Hp.
Qed.

(** The first pattern that matches gives the identifier. *)
Lemma find_file_id_first (before : list pattern) (p : pattern)
  (after : list pattern) (url id : str) :
  Forall (fun q => re_search q url = None) before ->
  re_search p url = Some id ->
  find_file_id (before ++ p :: after) url = Some id.
Proof.
  induction 1 as [|q qs Hq _ IH]; simpl; intros Hp.
  - now rewrite Hp.
  - rewrite Hq. now apply IH.
Qed.

(** A match holds at least [min_run] characters. *)
Lemma re_search_length (p : pattern) (s id : str) :
  re_search p s = Some id -> min_run p <= List.length id.
Proof.
  induction s as [|x s IH]; simpl; unfold match_at.
  - destruct (strip_prefix (literal p) []) as [rest|]; [|discriminate].
    cbv zeta. destruct (Nat.leb _ _) eqn:Hl; [|discriminate].
    intros H; inversion H; subst. now apply Nat.leb_le.
  - destruct (strip_prefix (literal p) (x :: s)) as [rest|]; [|exact IH].
    cbv zeta. destruct (Nat.leb _ _) eqn:Hl; [|exact IH].
    intros H; inversion H; subst. now apply Nat.leb_le.
Qed.

(** The identifier found by the patterns of the script is never empty. *)
Lemma find_file_id_truthy (url id : str) :
  find_file_id patterns url = Some id -> truthy id = true.
Proof.
  assert (Hall : Forall (fun p => 1 <= min_run p) patterns)
    by (unfold patterns; repeat constructor).
  revert Hall. generalize patterns as ps.
  induction ps as [|p ps IH]; simpl; [discriminate|].
  intros Hall H. inversion Hall as [|? ? Hp Hps]; subst.
  destruct (re_search p url) as [g|] eqn:Hs.
  - inversion H; subst. apply re_search_length in Hs.
    destruct id; simpl in *; [lia|reflexivity].
  - now apply IH.
Qed.

Section LinkResolverFacts.

Variable http : net_log -> str -> result response.
Variable decode_reads : list N -> result notebook.

(** One turn of the loop over the download URLs. *)
Lemma try_download_cons (u : str) (rest : list str) (log : net_log) :
  try_download http decode_reads (u :: rest) log =
    match accepted http decode_reads log u with
    | Some nb => (Ok (Some nb), log ++ [u])
    | None => try_download http decode_reads rest (log ++ [u])
    end.
Proof.
  cbn [try_download]. unfold bind, try_except, requests_get, accepted, ret.
  destruct (http log u) as [resp|e]; [|reflexivity].
  destruct (Z.eqb (status_code resp) 200); [|reflexivity].
  destruct (decode_reads (body resp)); reflexivity.
Qed.

(** The run of the resolver once an identifier is found. *)
Lemma download_colab_notebook_found (url id : str) (log : net_log) :
  find_file_id patterns url = Some id ->
  download_colab_notebook http decode_reads url log =
    match accepted http decode_reads log
            (lit "https://drive.google.com/uc?id=" ++ id) with
    | Some nb => (Ok nb, log ++ [lit "https://drive.google.com/uc?id=" ++ id])
    | None =>
        match accepted http decode_reads
                (log ++ [lit "https://drive.google.com/uc?id=" ++ id])
                (lit "https://drive.google.com/uc?export=download&id=" ++ id) with
        | Some nb =>
            (Ok nb,
             log ++ [ lit "https://drive.google.com/uc?id=" ++ id
                    ; lit "https://drive.google.com/uc?export=download&id=" ++ id ])
        | None =>
            (Raise download_error,
             log ++ [ lit "https://drive.google.com/uc?id=" ++ id
                    ; lit "https://drive.google.com/uc?export=download&id=" ++ id ])
        end
    end.
Proof.
  intros Hid. unfold download_colab_notebook. rewrite Hid.
  rewrite (find_file_id_truthy url Hid). cbn [negb].
  unfold download_urls, bind. rewrite try_download_cons.
  destruct (accepted http decode_reads log _) as [nb|]; [reflexivity|].
  rewrite try_download_cons.
  destruct (accepted http decode_reads _ _) as [nb|];
    cbn [try_download]; unfold ret, raise; rewrite <- app_assoc; reflexivity.
Qed.

End LinkResolverFacts.

(** C9: when none of the three patterns matches the URL, the resolver
    raises the identifier error and requests nothing.  When a pattern
    matches and none before it does, its match is the identifier; the two
    download URLs are requested in order, the first response with status
    200 whose body parses is returned, and when neither is, the resolver
    raises the download error. *)
Theorem link_resolution :
  forall (http : net_log -> str -> result response)
         (decode_reads : list N -> result notebook)
         (url : str) (log : net_log),
    (Forall (fun p => re_search p url = None) patterns ->
     download_colab_notebook http decode_reads url log
       = (Raise file_id_error, log))
    /\ (forall (before : list pattern) (p : pattern) (after : list pattern)
               (id : str),
        patterns = before ++ p :: after ->
        Forall (fun q => re_search q url = None) before ->
        re_search p url = Some id ->
        download_colab_notebook http decode_reads url log =
          match accepted http decode_reads log
                  (lit "https://drive.google.com/uc?id=" ++ id) with
          | Some nb =>
              (Ok nb, log ++ [lit "https://drive.google.com/uc?id=" ++ id])
          | None =>
              match accepted http decode_reads
                      (log ++ [lit "https://drive.google.com/uc?id=" ++ id])
                      (lit "https://drive.google.com/uc?export=download&id=" ++ id)
              with
              | Some nb =>
                  (Ok nb,
                   log ++ [ lit "https://drive.google.com/uc?id=" ++ id
                          ; lit "https://drive.google.com/uc?export=download&id=" ++ id ])
              | None =>
                  (Raise download_error,
                   log ++ [ lit "https://drive.google.com/uc?id=" ++ id
                          ; lit "https://drive.google.com/uc?export=download&id=" ++ id ])
              end
          end).
Proof.
  intros http decode_reads url log. split.
  - intros Hnone. unfold download_colab_notebook.
    now rewrite find_file_id_none by exact Hnone.
  - intros before p after id Hps Hbefore Hp.
    apply download_colab_notebook_found.
    rewrite Hps. now apply find_file_id_first.
Qed.

(** C9 at two links: one with no identifier, and a Colab link whose
    identifier is found by the second pattern. *)
Lemma link_resolution_sample :
  download_colab_notebook sample_http sample_reads
    (lit "https://example.com/notebook") []
    = (Raise file_id_error, [])
  /\ download_colab_notebook sample_http sample_reads
       (lit "https://colab.research.google.com/drive/1aB-c_9") []
     = (Ok new_notebook,
        [ lit "https://drive.google.com/uc?id=1aB-c_9"
        ; lit "https://drive.google.com/uc?export=download&id=1aB-c_9" ]).
Proof.
  split.
  - apply (proj1 (link_resolution sample_http sample_reads
                    (lit "https://example.com/notebook") [])).
    repeat constructor.
  - apply (proj2 (link_resolution sample_http sample_reads
                    (lit "https://colab.research.google.com/drive/1aB-c_9") [])
             [mkPattern (lit "/d/") 1] (mkPattern (lit "drive/") 1)
             [mkPattern (lit "/") 20] (lit "1aB-c_9")).
    + reflexivity.
    + repeat constructor.
    + reflexivity.
Defined.

(* ================================================================== *)
(** * Trimming *)
(* ================================================================== *)

Lemma lstrip_nil_iff (s : str) :
  lstrip s = [] <-> Forall (fun ch => isspace ch = true) s.
Proof.
  induction s as [|a s IH]; simpl.
  - split; constructor.
  - destruct (isspace a) eqn:Ha.
    + rewrite IH. split; [intros H; now constructor | intros H; now inversion H].
    + split; [discriminate | intros H; inversion H; congruence].
Qed.

(** What is left by [lstrip] starts with a character that is no whitespace. *)
Lemma lstrip_head (s : str) (a : N) (t : str) :
  lstrip s = a :: t -> isspace a = false.
Proof.
  induction s as [|b s IH]; simpl; [discriminate|].
  destruct (isspace b) eqn:Hb; [exact IH|].
  intros H; inversion H; subst; exact Hb.
Qed.

Lemma lstrip_app_last (s : str) (a : N) :
  isspace a = false -> lstrip (s ++ [a]) = lstrip s ++ [a].
Proof.
  intros Ha. induction s as [|b s IH]; simpl.
  - now rewrite Ha.
  - destruct (isspace b); [exact IH | reflexivity].
Qed.

Lemma rstrip_cons (a : N) (t : str) :
  isspace a = false -> rstrip (a :: t) = a :: rstrip t.
Proof.
  intros Ha. unfold rstrip. simpl.
  rewrite lstrip_app_last by exact Ha.
  rewrite rev_app_distr. reflexivity.
Qed.

Lemma rstrip_nil_iff (s : str) :
  rstrip s = [] <-> Forall (fun ch => isspace ch = true) s.
Proof.
  unfold rstrip. split.
  - intros H. apply (f_equal (@rev N)) in H. rewrite rev_involutive in H.
    simpl in H. apply lstrip_nil_iff in H.
    rewrite <- (rev_involutive s). now apply Forall_rev.
  - intros H. apply Forall_rev in H. apply lstrip_nil_iff in H. now rewrite H.
Qed.

(** What is left by [rstrip] ends with a character that is no whitespace. *)
Lemma rstrip_last_char (s : str) :
  rstrip s = [] \/ exists t b, rstrip s = t ++ [b] /\ isspace b = false.
Proof.
  unfold rstrip. destruct (lstrip (rev s)) as [|b t] eqn:E.
  - now left.
  - right. exists (rev t), b. split; [reflexivity|]. now apply lstrip_head in E.
Qed.

(** A text is empty after trimming exactly when it holds only whitespace. *)
Lemma strip_nil_iff (s : str) :
  strip s = [] <-> Forall (fun ch => isspace ch = true) s.
Proof.
  unfold strip. rewrite rstrip_nil_iff.
  destruct (lstrip s) as [|a t] eqn:E.
  - split; [intros _; now apply lstrip_nil_iff | constructor].
  - pose proof (lstrip_head _ E) as Ha. split.
    + intros H. inversion H; congruence.
    + intros H. apply lstrip_nil_iff in H. congruence.
Qed.

(** A trimmed text is empty, or starts and ends with characters that are
    no whitespace. *)
Lemma strip_shape (s : str) :
  strip s = []
  \/ ((exists a t, strip s = a :: t /\ isspace a = false)
      /\ (exists t b, strip s = t ++ [b] /\ isspace b = false)).
Proof.
  unfold strip. destruct (lstrip s) as [|a t] eqn:E.
  - now left.
  - right. pose proof (lstrip_head _ E) as Ha. split.
    + exists a, (rstrip t). split; [now apply rstrip_cons | exact Ha].
    + destruct (rstrip_last_char (a :: t)) as [H|H]; [|exact H].
      rewrite rstrip_cons in H by exact Ha. discriminate.
Qed.

(** Trimming twice is trimming once. *)
Lemma strip_strip (s : str) : strip (strip s) = strip s.
Proof.
  destruct (strip_shape s) as [H|[H1 H2]].
  - rewrite H. reflexivity.
  - now apply strip_ends.
Qed.

Lemma strip_overview_error (ep : entry_point) (e : exn) :
  strip (overview_error ep e) = overview_error ep e.
Proof.
  destruct ep; [reflexivity|].
  apply strip_ends.
  - eexists _, _. split; reflexivity.
  - exists (lit "# Jupyter Notebook Documentation" ++ nl ++ nl
            ++ lit "*Error generating overview: " ++ exn_str e), 42%N.
    split; [|reflexivity]. unfold overview_error.
    now rewrite <- !app_assoc.
Qed.

Lemma strip_reply_text (on_error : exn -> str) (reply : result (option str)) :
  (forall e, strip (on_error e) = on_error e) ->
  strip (reply_text on_error reply) = reply_text on_error reply.
Proof.
  intros H. destruct reply as [[text|]|e]; simpl; auto using strip_strip.
Qed.

(** Every text the two generators return is trimmed already: the overview
    and every annotation, whether the call succeeded, failed or was
    skipped, has no whitespace at either end. *)
Theorem generated_texts_are_trimmed :
  forall (client : trace -> request -> result (option str)) (ep : entry_point),
    (forall cells tr, exists text tr',
        get_notebook_overview client ep cells tr = (Ok text, tr')
        /\ strip text = text)
    /\ (forall c ctx tr, exists text tr',
        generate_cell_doc client ep c ctx tr = (Ok text, tr')
        /\ strip text = text).
Proof.
  intros client ep. split.
  - intros cells tr. eexists _, _. rewrite get_notebook_overview_run.
    split; [reflexivity|].
    apply strip_reply_text. apply strip_overview_error.
  - intros c ctx tr. destruct (truthy (strip c)) eqn:Hs.
    + eexists _, _. rewrite generate_cell_doc_run by (now right).
      split; [reflexivity|]. apply strip_reply_text. apply strip_cell_error.
    + destruct ep.
      * eexists _, _. rewrite generate_cell_doc_run by (now left).
        split; [reflexivity|]. apply strip_reply_text. apply strip_cell_error.
      * exists [], tr. unfold generate_cell_doc. rewrite Hs. simpl.
        split; reflexivity.
Qed.

(* ================================================================== *)
(** * Which cells the loop skips *)
(* ================================================================== *)

(** One pass of the loop over a code cell.  When the content holds only
    whitespace the pass does nothing: the notebook under construction and
    the log of calls stay as they are.  When it holds a character that is
    no whitespace the pass issues one call and appends the code cell. *)
Theorem whitespace_code_cell_is_skipped :
  forall (client : trace -> request -> result (option str))
         (ep : entry_point) (ctx : str) (acc : notebook) (c : cell) (tr : trace),
    is_code c = true ->
    (Forall (fun ch => isspace ch = true) (content c) ->
     process_cell client ep ctx acc c tr = (Ok acc, tr))
    /\ ((exists ch, In ch (content c) /\ isspace ch = false) ->
        exists emitted,
          process_cell client ep ctx acc c tr =
            (Ok (extend acc (emitted ++ [new_code_cell (content c)])),
             tr ++ [cell_request ep (content c) ctx])).
Proof.
  intros client ep ctx acc c tr Hc. split.
  - intros Hws. apply strip_nil_iff in Hws.
    assert (Ha : annotated c = false)
      by (unfold annotated; rewrite Hws; apply andb_false_r).
    rewrite process_cell_not_annotated by exact Ha.
    assert (Hm : is_markdown c = false).
    { unfold is_code, is_markdown in *. apply eqb_eq in Hc. now rewrite Hc. }
    now rewrite Hm.
  - intros (ch & Hin & Hch).
    assert (Ha : annotated c = true).
    { unfold annotated. rewrite Hc. simpl. apply truthy_true.
      intros Hs. apply strip_nil_iff in Hs.
      rewrite Forall_forall in Hs. apply Hs in Hin. congruence. }
    eexists. rewrite process_cell_annotated by exact Ha. reflexivity.
Qed.

(** The pass over a code cell of one newline, two spaces and a tab, and
    over the code cell [ x ], for a service that always answers the same. *)
Lemma whitespace_code_cell_is_skipped_sample :
  process_cell (constant_client (lit "Sets x")) streamlit_py [] new_notebook
    (mkCell (lit "code") [10; 32; 32; 9]%N) []
  = (Ok new_notebook, [])
  /\ exists emitted,
       process_cell (constant_client (lit "Sets x")) streamlit_py []
         new_notebook (mkCell (lit "code") (lit " x ")) []
       = (Ok (extend new_notebook
                (emitted
                 ++ [new_code_cell (content (mkCell (lit "code") (lit " x ")))])),
          [] ++ [cell_request streamlit_py
                   (content (mkCell (lit "code") (lit " x "))) []]).
Proof.
  split.
  - apply (proj1 (whitespace_code_cell_is_skipped
                    (constant_client (lit "Sets x")) streamlit_py []
                    new_notebook (mkCell (lit "code") [10; 32; 32; 9]%N) []
                    eq_refl)).
    repeat constructor.
  - apply (proj2 (whitespace_code_cell_is_skipped
                    (constant_client (lit "Sets x")) streamlit_py []
                    new_notebook (mkCell (lit "code") (lit " x ")) []
                    eq_refl)).
    exists 120%N. split; [right; left; reflexivity | reflexivity].
Defined.

(* ================================================================== *)
(** * Shape of the output *)
(* ================================================================== *)

Lemma is_code_not_markdown (c : cell) :
  is_code c = true -> is_markdown c = false.
Proof.
  unfold is_code, is_markdown. intros H. apply eqb_eq in H. now rewrite H.
Qed.

(** Among the kept cells, the code cells are the annotated ones. *)
Lemma filter_is_code_kept (cells : list cell) :
  filter is_code (filter kept cells) = filter annotated cells.
Proof.
  induction cells as [|c cells IH]; [reflexivity|].
  cbn [filter]. destruct (annotated c) eqn:Ha; [|destruct (is_markdown c) eqn:Hm].
  - assert (Hk : kept c = true) by (unfold kept; now rewrite Ha).
    assert (Hc : is_code c = true)
      by (unfold annotated in Ha; now apply andb_true_iff in Ha).
    rewrite Hk. cbn [filter]. now rewrite Hc, IH.
  - assert (Hk : kept c = true) by (unfold kept; now rewrite Ha, Hm).
    assert (Hc : is_code c = false).
    { destruct (is_code c) eqn:Hc; [|reflexivity].
      apply is_code_not_markdown in Hc. congruence. }
    rewrite Hk. cbn [filter]. now rewrite Hc.
  - assert (Hk : kept c = false) by (unfold kept; now rewrite Ha, Hm).
    now rewrite Hk.
Qed.

Lemma weave_length (cs : list cell) :
  forall coms : list (list nbcell),
    Forall2 commentary_for cs coms ->
    List.length cs <= List.length (weave coms (map fresh_copy cs))
    /\ List.length (weave coms (map fresh_copy cs))
       <= List.length cs + List.length (filter is_code cs).
Proof.
  intros coms HF; induction HF as [|c com cs coms Hc HF IH]; [simpl; lia|].
  cbn [map weave filter]. rewrite length_app. cbn [List.length].
  destruct Hc as [->|(Hcode & doc & _ & ->)].
  - destruct (is_code c); cbn [List.length]; lia.
  - rewrite Hcode. cbn [List.length]. lia.
Qed.

Lemma weave_code_nodes (cs : list cell) :
  forall coms : list (list nbcell),
    Forall2 commentary_for cs coms ->
    filter is_code_node (weave coms (map fresh_copy cs))
      = map fresh_copy (filter is_code cs).
Proof.
  intros coms HF; induction HF as [|c com cs coms Hc HF IH]; [reflexivity|].
  cbn [map weave filter]. rewrite filter_app. cbn [filter].
  change (is_code_node (fresh_copy c)) with (is_code c).
  assert (E : filter is_code_node com = []).
  { destruct Hc as [->|(_ & doc & _ & ->)]; reflexivity. }
  rewrite E, IH. destruct (is_code c); reflexivity.
Qed.

(** The size of the output: the overview cell, every kept cell, and at
    most one commentary cell per annotated cell; so at least one cell and
    at most one more than twice the number of input cells. *)
Theorem output_cell_count :
  forall (client : trace -> request -> result (option str))
         (ep : entry_point) (nb : notebook) (tr : trace),
  exists (out : notebook) (tr' : trace),
    create_documented_notebook client ep nb tr = (Ok out, tr')
    /\ 1 + List.length (filter kept (extract_cells nb))
       <= List.length (nb_cells out)
    /\ List.length (nb_cells out)
       <= 1 + List.length (filter kept (extract_cells nb))
            + List.length (filter annotated (extract_cells nb))
    /\ List.length (nb_cells out) <= 1 + 2 * List.length (nb_cells nb).
Proof.
  intros client ep nb tr.
  destruct (create_documented_notebook_run client ep nb tr) as (com & HF & Hrun).
  eexists _, _. split; [exact Hrun|]. cbn [nb_cells List.length].
  destruct (weave_length HF) as [Hlo Hhi].
  rewrite filter_is_code_kept in Hhi.
  pose proof (filter_length_le kept (extract_cells nb)) as Hk.
  pose proof (filter_length_le annotated (extract_cells nb)) as Ha.
  assert (Hl : List.length (extract_cells nb) = List.length (nb_cells nb))
    by (unfold extract_cells; apply length_map).
  lia.
Qed.

(** The code cells of the output are the code cells of the input whose
    content is not empty after trimming, in the same order and with the
    same source; every other cell of the output is a markdown cell. *)
Theorem output_code_cells :
  forall (client : trace -> request -> result (option str))
         (ep : entry_point) (nb : notebook) (tr : trace),
  exists (out : notebook) (tr' : trace),
    create_documented_notebook client ep nb tr = (Ok out, tr')
    /\ filter is_code_node (nb_cells out)
       = map (fun c => new_code_cell (content c))
             (filter annotated (extract_cells nb))
    /\ Forall (fun o => cell_type o = lit "code"
                        \/ cell_type o = lit "markdown") (nb_cells out).
Proof.
  intros client ep nb tr.
  destruct (create_documented_notebook_run client ep nb tr) as (com & HF & Hrun).
  eexists _, _. split; [exact Hrun|]. cbn [nb_cells]. split.
  - cbn [filter]. change (is_code_node (new_markdown_cell _)) with false.
    cbv iota. rewrite (weave_code_nodes HF), filter_is_code_kept.
    apply map_ext_in. intros c Hc. apply filter_In in Hc as [_ Hc].
    symmetry. apply is_code_fresh_copy.
    unfold annotated in Hc. now apply andb_true_iff in Hc.
  - constructor; [now right|].
    apply weave_Forall; [exact HF| |intros doc; now right].
    apply Forall_forall. intros c Hc. apply filter_In in Hc as [_ Hc].
    destruct (kept_fresh_copy c Hc) as [E|E]; rewrite E; [left|right]; reflexivity.
Qed.

(* ================================================================== *)
(** * Runs with a uniform annotation *)
(* ================================================================== *)

(** The loop when every annotation call of its cells returns [doc]. *)
Lemma for_each_process_cell_uniform
  (client : trace -> request -> result (option str))
  (ep : entry_point) (ctx doc : str) (cells : list cell) :
  (forall tr c, In c cells -> annotated c = true ->
     reply_text (cell_error ep) (client tr (cell_request ep (content c) ctx))
       = doc) ->
  forall (acc : notebook) (tr : trace),
    for_each (process_cell client ep ctx) cells acc tr =
      (Ok (extend acc (flat_map (emitted_with doc) cells)),
       tr ++ map (fun c => cell_request ep (content c) ctx)
                 (filter annotated cells)).
Proof.
  induction cells as [|c cells IH]; intros Hdoc acc tr.
  - simpl. now rewrite extend_nil, app_nil_r.
  - assert (IH' := IH (fun tr c Hin => Hdoc tr c (or_intror Hin))).
    cbn [for_each flat_map filter]. unfold bind, emitted_with at 1.
    destruct (annotated c) eqn:Ha.
    + rewrite process_cell_annotated by exact Ha. cbv beta iota zeta.
      rewrite (Hdoc tr c (or_introl eq_refl) Ha), IH', extend_extend.
      cbn [map]. rewrite <- !app_assoc. reflexivity.
    + rewrite process_cell_not_annotated by exact Ha.
      destruct (is_markdown c); rewrite IH', ?extend_extend; reflexivity.
Qed.

Lemma truthy_cell_error (ep : entry_point) (e : exn) :
  truthy (cell_error ep e) = true.
Proof. destruct ep; reflexivity. Qed.

(** When the service fails every call with the error [e], the run still
    ends in a notebook: the overview cell holds the error text of the
    overview, every annotated code cell is preceded by one cell holding
    the error text of the annotation, and the markdown cells are copied;
    all the calls of the run are still issued. *)
Theorem output_when_every_call_fails :
  forall (client : trace -> request -> result (option str))
         (ep : entry_point) (nb : notebook) (tr : trace) (e : exn),
    (forall tr' req, client tr' req = Raise e) ->
    create_documented_notebook client ep nb tr =
      (Ok (mkNotebook []
             (new_markdown_cell (overview_error ep e)
              :: flat_map
                   (fun c =>
                      if annotated c then
                        [ new_markdown_cell (cell_error ep e)
                        ; new_code_cell (content c) ]
                      else if is_markdown c then
                        [ new_markdown_cell (content c) ]
                      else [])
                   (extract_cells nb))),
       tr ++ overview_request ep (extract_cells nb)
          :: map (fun c => cell_request ep (content c)
                             (full_context (extract_cells nb)))
                 (filter annotated (extract_cells nb))).
Proof.
  intros client ep nb tr e Hfail.
  unfold create_documented_notebook, bind.
  rewrite get_notebook_overview_run, Hfail.
  rewrite (for_each_process_cell_uniform client ep
             (full_context (extract_cells nb)) (doc := cell_error ep e)).
  - rewrite <- app_assoc. cbn [reply_text]. unfold cells_append, extend.
    cbn [nb_cells nb_metadata new_notebook app].
    do 4 f_equal. apply flat_map_ext. intros c.
    unfold emitted_with. now rewrite truthy_cell_error.
  - intros tr' c _ _. now rewrite Hfail.
Qed.

(** The run on [code:"", code:"x=1", markdown:"note"] in
    [streamlit_app.py] when every call fails with a connection error. *)
Lemma output_when_every_call_fails_sample :
  create_documented_notebook
    (failing_client (mkExn (lit "APIConnectionError") (lit "Connection error.")))
    streamlit_py sample_notebook [] =
  (Ok (mkNotebook []
         [ new_markdown_cell
             (lit "# Jupyter Notebook Documentation" ++ nl ++ nl
              ++ lit "*Error generating overview: Connection error.*")
         ; new_markdown_cell
             (lit "*Error generating documentation: Connection error.*")
         ; new_code_cell (lit "x=1")
         ; new_markdown_cell (lit "note") ]),
   [ overview_request streamlit_py (extract_cells sample_notebook)
   ; cell_request streamlit_py (lit "x=1")
       (full_context (extract_cells sample_notebook)) ]).
Proof.
  exact (output_when_every_call_fails
           (failing_client (mkExn (lit "APIConnectionError") (lit "Connection error.")))
           streamlit_py sample_notebook []
           (e := mkExn (lit "APIConnectionError") (lit "Connection error."))
           (fun _ _ => eq_refl)).
Defined.

Lemma nothing_annotated (doc : str) (cells : list cell) :
  Forall (fun c => annotated c = false) cells ->
  filter annotated cells = []
  /\ flat_map (emitted_with doc) cells
     = map (fun c => new_markdown_cell (content c)) (filter is_markdown cells).
Proof.
  induction 1 as [|c cells Hc _ [IH1 IH2]]; [split; reflexivity|].
  cbn [filter flat_map]. unfold emitted_with at 1. rewrite Hc, IH1, IH2.
  split; [reflexivity|]. destruct (is_markdown c); reflexivity.
Qed.

(** A notebook with no code cell to annotate (markdown cells, code cells
    of whitespace, cells of other kinds) costs one call: the output is the
    overview cell followed by the markdown cells, in order. *)
Theorem nothing_to_annotate :
  forall (client : trace -> request -> result (option str))
         (ep : entry_point) (nb : notebook) (tr : trace),
    Forall (fun c => annotated c = false) (extract_cells nb) ->
    create_documented_notebook client ep nb tr =
      (Ok (mkNotebook []
             (new_markdown_cell
                (reply_text (overview_error ep)
                   (client tr (overview_request ep (extract_cells nb))))
              :: map (fun c => new_markdown_cell (content c))
                     (filter is_markdown (extract_cells nb)))),
       tr ++ [overview_request ep (extract_cells nb)]).
Proof.
  intros client ep nb tr Hnone.
  destruct (nothing_annotated [] Hnone) as [Hf Hm].
  unfold create_documented_notebook, bind.
  rewrite get_notebook_overview_run.
  rewrite (for_each_process_cell_uniform client ep
             (full_context (extract_cells nb)) (doc := [])).
  - rewrite Hf, Hm. cbn [map]. rewrite app_nil_r. reflexivity.
  - intros tr' c Hin Ha. rewrite Forall_forall in Hnone.
    apply Hnone in Hin. congruence.
Qed.

(** The run on a notebook of one markdown cell, one code cell of spaces
    and one raw cell. *)
Lemma nothing_to_annotate_sample :
  create_documented_notebook (constant_client (lit "Notes")) app_py
    (mkNotebook []
       [ mkNbcell (lit "markdown") (lit "# Title") [] [] None
       ; mkNbcell (lit "code") (lit "   ") [] [] None
       ; mkNbcell (lit "raw") (lit "raw text") [] [] None ]) [] =
  (Ok (mkNotebook []
         [ new_markdown_cell (lit "Notes")
         ; new_markdown_cell (lit "# Title") ]),
   [ overview_request app_py
       [ mkCell (lit "markdown") (lit "# Title")
       ; mkCell (lit "code") (lit "   ")
       ; mkCell (lit "raw") (lit "raw text") ] ]).
Proof.
  apply (nothing_to_annotate (constant_client (lit "Notes")) app_py
           (mkNotebook []
              [ mkNbcell (lit "markdown") (lit "# Title") [] [] None
              ; mkNbcell (lit "code") (lit "   ") [] [] None
              ; mkNbcell (lit "raw") (lit "raw text") [] [] None ]) []).
  repeat constructor.
Defined.

(* ================================================================== *)
(** * Documenting a documented notebook *)
(* ================================================================== *)

Lemma filter_all_true {A : Type} (f : A -> bool) (l : list A) :
  Forall (fun x => f x = true) l -> filter f l = l.
Proof.
  induction 1 as [|x l Hx _ IH]; [reflexivity|].
  cbn [filter]. now rewrite Hx, IH.
Qed.

Lemma cell_of_fresh_copy (c : cell) : cell_of (fresh_copy c) = c.
Proof. destruct c; reflexivity. Qed.

(** The output of a run, fed to a second run (of either script, with any
    service): every cell of the first output is kept, so the second output
    is a new overview cell followed by all the cells of the first output,
    in order, each preceded by at most one new commentary cell. *)
Theorem documenting_again_keeps_every_cell :
  forall (client client2 : trace -> request -> result (option str))
         (ep ep2 : entry_point) (nb : notebook) (tr tr2 : trace),
  exists (out : notebook) (tr' : trace) (out2 : notebook) (tr2' : trace)
         (overview2 : str) (commentary : list (list nbcell)),
    create_documented_notebook client ep nb tr = (Ok out, tr')
    /\ filter kept (extract_cells out) = extract_cells out
    /\ create_documented_notebook client2 ep2 out tr2 = (Ok out2, tr2')
    /\ nb_cells out2
       = new_markdown_cell overview2 :: weave commentary (nb_cells out)
    /\ Forall2 commentary_for (extract_cells out) commentary.
Proof.
  intros client client2 ep ep2 nb tr tr2.
  destruct (create_documented_notebook_run client ep nb tr) as (com & HF & Hrun).
  match type of Hrun with _ = (Ok ?o, _) => set (out := o) in * end.
  assert (Hall : Forall (fun o => kept (cell_of o) = true
                                  /\ fresh_copy (cell_of o) = o)
                        (nb_cells out)).
  { subst out. cbn [nb_cells]. constructor; [split; reflexivity|].
    apply weave_Forall; [exact HF| |intros doc; split; reflexivity].
    apply Forall_forall. intros c Hc. apply filter_In in Hc as [_ Hc].
    rewrite cell_of_fresh_copy. split; [exact Hc|reflexivity]. }
  assert (Hk : filter kept (extract_cells out) = extract_cells out).
  { apply filter_all_true. unfold extract_cells. apply Forall_map.
    eapply Forall_impl; [|exact Hall]. intros o [H _]. exact H. }
  assert (Hcopy : map fresh_copy (extract_cells out) = nb_cells out).
  { unfold extract_cells. rewrite map_map.
    rewrite <- (map_id (nb_cells out)) at 2. apply map_ext_in.
    intros o Ho. rewrite Forall_forall in Hall. now apply Hall. }
  destruct (create_documented_notebook_run client2 ep2 out tr2)
    as (com2 & HF2 & Hrun2).
  rewrite Hk in HF2, Hrun2. rewrite Hcopy in Hrun2.
  eexists out, _, _, _, _, com2.
  split; [exact Hrun|]. split; [exact Hk|]. split; [exact Hrun2|].
  split; [reflexivity|exact HF2].
Qed.

(* ================================================================== *)
(** * What the context strings hold *)
(* ================================================================== *)

Lemma join_In (sep p : str) (parts : list str) :
  In p parts -> exists pre post, join sep parts = pre ++ p ++ post.
Proof.
  induction parts as [|q parts IH]; [contradiction|].
  intros [->|Hin].
  - exists []. rewrite join_cons. destruct parts.
    + exists []. now rewrite app_nil_r.
    + eexists. reflexivity.
  - destruct (IH Hin) as (pre & post & E). rewrite join_cons.
    destruct parts as [|r parts]; [contradiction|].
    rewrite E. exists (q ++ sep ++ pre), post. now rewrite <- !app_assoc.
Qed.

(** The content of every code cell of the notebook, blank or not, stands
    in full inside both context strings: the one of the per-cell prompts
    and the one of the overview prompt. *)
Theorem code_cell_stands_in_context :
  forall (cells : list cell) (c : cell),
    In c cells ->
    is_code c = true ->
    (exists pre post, full_context cells = pre ++ content c ++ post)
    /\ (exists pre post, all_code cells = pre ++ content c ++ post).
Proof.
  intros cells c Hin Hc.
  assert (H : In (content c) (code_contents cells)).
  { unfold code_contents. apply in_map. apply filter_In. now split. }
  split; apply join_In; exact H.
Qed.

(** The cell [x=1] of [code:"", code:"x=1", markdown:"note"]. *)
Lemma code_cell_stands_in_context_sample :
  (exists pre post,
      full_context (extract_cells sample_notebook)
      = pre ++ content (mkCell (lit "code") (lit "x=1")) ++ post)
  /\ (exists pre post,
      all_code (extract_cells sample_notebook)
      = pre ++ content (mkCell (lit "code") (lit "x=1")) ++ post).
Proof.
  apply (code_cell_stands_in_context (extract_cells sample_notebook)
           (mkCell (lit "code") (lit "x=1"))).
  - right; left; reflexivity.
  - reflexivity.
Defined.

(* ================================================================== *)
(** * The identifier of a link *)
(* ================================================================== *)

Lemma strip_prefix_app (p s rest : str) :
  strip_prefix p s = Some rest -> s = p ++ rest.
Proof.
  revert s; induction p as [|x p IH]; intros s; simpl.
  - intros H; now inversion H.
  - destruct s as [|y s]; [discriminate|].
    destruct (N.eqb x y) eqn:E; [|discriminate].
    apply N.eqb_eq in E; subst. intros H. now rewrite (IH s H).
Qed.

Lemma strip_prefix_self (p rest : str) : strip_prefix p (p ++ rest) = Some rest.
Proof.
  induction p as [|x p IH]; simpl; [reflexivity|]. now rewrite N.eqb_refl.
Qed.

(** [take_while] splits a text into the longest run of the class and a
    rest that is empty or starts outside the class. *)
Lemma take_while_spec (f : N -> bool) (s : str) :
  exists post,
    s = take_while f s ++ post
    /\ Forall (fun ch => f ch = true) (take_while f s)
    /\ (post = [] \/ exists ch rest, post = ch :: rest /\ f ch = false).
Proof.
  induction s as [|a s (post & E & HF & Hpost)]; simpl.
  - exists []. repeat split; [constructor | now left].
  - destruct (f a) eqn:Ha.
    + exists post. split; [simpl; now rewrite <- E|].
      split; [now constructor | exact Hpost].
    + exists (a :: s). split; [reflexivity|]. split; [constructor|].
      right. now exists a, s.
Qed.

Lemma take_while_app (f : N -> bool) (run post : str) :
  Forall (fun ch => f ch = true) run ->
  (post = [] \/ exists ch rest, post = ch :: rest /\ f ch = false) ->
  take_while f (run ++ post) = run.
Proof.
  induction 1 as [|a run Ha _ IH]; intros Hpost; simpl.
  - destruct Hpost as [->|(ch & rest & -> & Hch)]; simpl; [reflexivity|].
    now rewrite Hch.
  - rewrite Ha. now rewrite IH.
Qed.

(** Where a match of a pattern stands in the text. *)
Lemma re_search_spec (p : pattern) (s id : str) :
  re_search p s = Some id ->
  exists pre post,
    s = pre ++ literal p ++ id ++ post
    /\ Forall (fun ch => id_char ch = true) id
    /\ (post = [] \/ exists ch rest, post = ch :: rest /\ id_char ch = false).
Proof.
  assert (Hat : forall t, match_at p t = Some id ->
            exists post,
              t = literal p ++ id ++ post
              /\ Forall (fun ch => id_char ch = true) id
              /\ (post = [] \/ exists ch rest,
                                 post = ch :: rest /\ id_char ch = false)).
  { intros t. unfold match_at.
    destruct (strip_prefix (literal p) t) as [rest|] eqn:Ep; [|discriminate].
    cbv zeta. destruct (Nat.leb _ _); [|discriminate].
    intros H; inversion H; subst.
    destruct (take_while_spec id_char rest) as (post & E & HF & Hpost).
    exists post. apply strip_prefix_app in Ep. rewrite Ep, <- E. auto. }
  induction s as [|a s IH]; simpl.
  - destruct (match_at p []) eqn:Em; [|discriminate].
    intros H; inversion H; subst.
    destruct (Hat _ Em) as (post & E & HF & Hpost). exists [], post. auto.
  - destruct (match_at p (a :: s)) eqn:Em.
    + intros H; inversion H; subst.
      destruct (Hat _ Em) as (post & E & HF & Hpost). exists [], post. auto.
    + intros H. destruct (IH H) as (pre & post & E & HF & Hpost).
      exists (a :: pre), post. rewrite E. auto.
Qed.

(** The identifier taken from a link is never empty, holds only letters,
    digits, [-] and [_], and stands in the link right after the literal of
    one of the three patterns, up to the first character outside the
    class or the end of the link. *)
Theorem file_id_shape :
  forall (url id : str),
    find_file_id patterns url = Some id ->
    id <> []
    /\ Forall (fun ch => id_char ch = true) id
    /\ exists p pre post,
         In p patterns
         /\ url = pre ++ literal p ++ id ++ post
         /\ (post = [] \/ exists ch rest, post = ch :: rest /\ id_char ch = false).
Proof.
  intros url id H.
  split; [apply truthy_true; now apply (find_file_id_truthy url)|].
  assert (Hp : exists p, In p patterns /\ re_search p url = Some id).
  { revert H. generalize patterns as ps.
    induction ps as [|p ps IH]; simpl; [discriminate|].
    destruct (re_search p url) as [g|] eqn:Hs.
    - intros E; inversion E; subst. exists p. auto.
    - intros E. destruct (IH E) as (q & Hq & Hs'). exists q. auto. }
  destruct Hp as (p & Hin & Hs).
  destruct (re_search_spec _ _ Hs) as (pre & post & E & HF & Hpost).
  split; [exact HF|]. exists p, pre, post. auto.
Qed.

(** The identifier of a link to a file on Drive. *)
Lemma file_id_shape_sample :
  lit "1AbC-9_z" <> []
  /\ Forall (fun ch => id_char ch = true) (lit "1AbC-9_z")
  /\ exists p pre post,
       In p patterns
       /\ lit "https://drive.google.com/file/d/1AbC-9_z/view?usp=sharing"
          = pre ++ literal p ++ lit "1AbC-9_z" ++ post
       /\ (post = [] \/ exists ch rest, post = ch :: rest /\ id_char ch = false).
Proof.
  apply (file_id_shape
           (lit "https://drive.google.com/file/d/1AbC-9_z/view?usp=sharing")).
  reflexivity.
Defined.

(** Every run of the resolver ends in one of four ways: the identifier
    error with nothing requested; the notebook parsed from a response
    with status 200 to the first download URL, after one request; the
    same from the second download URL, after two requests; or the
    download error after two requests.  No exception of the network or
    of the parser leaves the resolver, and it never requests a third
    URL. *)
Theorem link_resolution_outcomes :
  forall (http : net_log -> str -> result response)
         (decode_reads : list N -> result notebook)
         (url : str) (log : net_log),
    (find_file_id patterns url = None
     /\ download_colab_notebook http decode_reads url log
        = (Raise file_id_error, log))
    \/ exists id,
         find_file_id patterns url = Some id
         /\ ((exists nb resp,
                download_colab_notebook http decode_reads url log
                  = (Ok nb, log ++ [lit "https://drive.google.com/uc?id=" ++ id])
                /\ http log (lit "https://drive.google.com/uc?id=" ++ id) = Ok resp
                /\ status_code resp = 200%Z
                /\ decode_reads (body resp) = Ok nb)
             \/ (exists nb resp,
                   download_colab_notebook http decode_reads url log
                     = (Ok nb,
                        log ++ [ lit "https://drive.google.com/uc?id=" ++ id
                               ; lit "https://drive.google.com/uc?export=download&id=" ++ id ])
                   /\ http (log ++ [lit "https://drive.google.com/uc?id=" ++ id])
                        (lit "https://drive.google.com/uc?export=download&id=" ++ id)
                      = Ok resp
                   /\ status_code resp = 200%Z
                   /\ decode_reads (body resp) = Ok nb)
             \/ download_colab_notebook http decode_reads url log
                = (Raise download_error,
                   log ++ [ lit "https://drive.google.com/uc?id=" ++ id
                          ; lit "https://drive.google.com/uc?export=download&id=" ++ id ])).
Proof.
  intros http decode_reads url log.
  assert (Hacc : forall l u nb,
            accepted http decode_reads l u = Some nb ->
            exists resp, http l u = Ok resp /\ status_code resp = 200%Z
                         /\ decode_reads (body resp) = Ok nb).
  { intros l u nb. unfold accepted.
    destruct (http l u) as [resp|e]; [|discriminate].
    destruct (Z.eqb (status_code resp) 200) eqn:Es; [|discriminate].
    destruct (decode_reads (body resp)) as [nb'|e] eqn:Ed; [|discriminate].
    intros H; inversion H; subst. exists resp.
    apply Z.eqb_eq in Es. auto. }
  destruct (find_file_id patterns url) as [id|] eqn:Hid.
  - right. exists id. split; [reflexivity|].
    rewrite (download_colab_notebook_found http decode_reads url log Hid).
    destruct (accepted http decode_reads log _) as [nb|] eqn:E1.
    + left. destruct (Hacc _ _ _ E1) as (resp & H1 & H2 & H3).
      exists nb, resp. auto.
    + destruct (accepted http decode_reads (log ++ _) _) as [nb|] eqn:E2.
      * right; left. destruct (Hacc _ _ _ E2) as (resp & H1 & H2 & H3).
        exists nb, resp. auto.
      * right; right. reflexivity.
  - left. split; [reflexivity|].
    unfold download_colab_notebook. now rewrite Hid.
Qed.

Lemma re_search_skip (p : pattern) (a : N) (s : str) :
  match_at p (a :: s) = None -> re_search p (a :: s) = re_search p s.
Proof. intros H. simpl. now rewrite H. Qed.

Lemma re_search_here (p : pattern) (s g : str) :
  match_at p s = Some g -> re_search p s = Some g.
Proof. intros H. destruct s; simpl; now rewrite H. Qed.

(** A pattern whose literal starts with a character that the text does
    not hold matches nowhere in it. *)
Lemma re_search_without_first (p : pattern) (a : N) (l s : str) :
  literal p = a :: l ->
  Forall (fun ch => ch <> a) s ->
  re_search p s = None.
Proof.
  intros Hp. induction 1 as [|b s Hb _ IH]; simpl; unfold match_at; rewrite Hp.
  - reflexivity.
  - simpl. destruct (N.eqb a b) eqn:E; [|exact IH].
    apply N.eqb_eq in E. congruence.
Qed.

(** A link as Colab shares it, [https://colab.research.google.com/drive/]
    followed by the identifier and then by nothing or by a rest that
    starts outside the class and holds no slash (a query string, a
    fragment), resolves to that identifier. *)
Theorem colab_link_resolves :
  forall (id rest : str),
    id <> [] ->
    Forall (fun ch => id_char ch = true) id ->
    (rest = [] \/ exists ch r, rest = ch :: r /\ id_char ch = false) ->
    Forall (fun ch => ch <> 47%N) rest ->
    find_file_id patterns
      (lit "https://colab.research.google.com/drive/" ++ id ++ rest)
    = Some id.
Proof.
  intros id rest Hne Hid Hrest Hslash.
  assert (Htail : Forall (fun ch => ch <> 47%N) (id ++ rest)).
  { apply Forall_app; split; [|exact Hslash].
    eapply Forall_impl; [|exact Hid]. intros ch Hch ->. discriminate. }
  assert (Hrun : take_while id_char (id ++ rest) = id)
    by now apply take_while_app.
  remember (id ++ rest) as tail eqn:Etail.
  let l := eval vm_compute in (lit "https://colab.research.google.com/drive/") in
  change (lit "https://colab.research.google.com/drive/") with l.
  cbn [app]. unfold patterns. cbn [find_file_id].
  assert (H1 : re_search (mkPattern (lit "/d/") 1)
                 (104 :: 116 :: 116 :: 112 :: 115 :: 58 :: 47 :: 47 :: 99
                  :: 111 :: 108 :: 97 :: 98 :: 46 :: 114 :: 101 :: 115
                  :: 101 :: 97 :: 114 :: 99 :: 104 :: 46 :: 103 :: 111
                  :: 111 :: 103 :: 108 :: 101 :: 46 :: 99 :: 111 :: 109
                  :: 47 :: 100 :: 114 :: 105 :: 118 :: 101 :: 47 :: tail)%N
               = None).
  { repeat (rewrite re_search_skip by reflexivity).
    rewrite re_search_skip.
    - now apply (re_search_without_first (mkPattern (lit "/d/") 1)
                   (a := 47%N) (l := lit "d/")).
    - unfold match_at. cbn [literal lit list_ascii_of_string map].
      change (strip_prefix _ (47%N :: tail))
        with (strip_prefix [100; 47]%N tail).
      assert (E : strip_prefix [100; 47]%N tail = None).
      { clear - Htail. destruct tail as [|a [|b t]]; cbn [strip_prefix].
        - reflexivity.
        - destruct (N.eqb 100 a); reflexivity.
        - destruct (N.eqb 100 a); [|reflexivity].
          destruct (N.eqb 47 b) eqn:E; [|reflexivity].
          apply N.eqb_eq in E. inversion Htail as [|? ? _ Ht]; subst.
          inversion Ht; subst. congruence. }
      now rewrite E. }
  rewrite H1.
  assert (H2 : re_search (mkPattern (lit "drive/") 1)
                 (104 :: 116 :: 116 :: 112 :: 115 :: 58 :: 47 :: 47 :: 99
                  :: 111 :: 108 :: 97 :: 98 :: 46 :: 114 :: 101 :: 115
                  :: 101 :: 97 :: 114 :: 99 :: 104 :: 46 :: 103 :: 111
                  :: 111 :: 103 :: 108 :: 101 :: 46 :: 99 :: 111 :: 109
                  :: 47 :: 100 :: 114 :: 105 :: 118 :: 101 :: 47 :: tail)%N
               = Some id).
  { repeat (rewrite re_search_skip by reflexivity).
    apply re_search_here. unfold match_at.
    change (strip_prefix _ _) with (strip_prefix (lit "drive/") (lit "drive/" ++ tail)).
    rewrite strip_prefix_self. cbv zeta. rewrite Hrun.
    destruct id; [congruence|reflexivity]. }
  now rewrite H2.
Qed.

(** A shared Colab link with a query string. *)
Lemma colab_link_resolves_sample :
  find_file_id patterns
    (lit "https://colab.research.google.com/drive/" ++ lit "1aB-c_9"
     ++ lit "?usp=sharing")
  = Some (lit "1aB-c_9").
Proof.
  apply (colab_link_resolves (id := lit "1aB-c_9") (rest := lit "?usp=sharing")).
  - discriminate.
  - repeat constructor.
  - right. eexists _, _. split; reflexivity.
  - repeat (constructor; [discriminate|]). constructor.
Defined.

(* ================================================================== *)
(** * The script [app.py] *)
(* ================================================================== *)

Section AppFacts.

Variable client : trace -> request -> result (option str).
Variable read_notebook : str -> result notebook.
Variable write_error : str -> notebook -> option exn.

(** Without a key in the environment (unset or empty), [main] raises the
    configuration error; with a key but an input file that cannot be read
    or parsed, it raises the error of the read.  In both cases nothing
    was called, written or printed. *)
Theorem app_main_stops_before_any_call :
  forall (api_key : option str) (w : app_world),
    (api_key = None \/ api_key = Some [] ->
     App.main client read_notebook write_error api_key w
       = (Raise (ValueError (lit "Please set GROQ_API_KEY environment variable")),
          w))
    /\ (forall key e,
          api_key = Some key -> key <> [] ->
          read_notebook (lit "test2.ipynb") = Raise e ->
          App.main client read_notebook write_error api_key w = (Raise e, w)).
Proof.
  intros api_key w. split.
  - intros [->| ->]; reflexivity.
  - intros key e -> Hkey Hread. apply truthy_true in Hkey.
    unfold App.main. rewrite Hkey. cbn [negb].
    unfold App.create_documented_notebook, bind, App.read. now rewrite Hread.
Qed.

(** With a key and a readable input, [main] runs the pipeline to its
    end whatever the service answers, and then writes once: when the
    write succeeds the world holds the calls of the pipeline, the output
    under [documented_notebook7.ipynb] and one printed line; when the
    write raises, [main] raises that error after all the calls, and
    prints nothing. *)
Theorem app_main_writes_once :
  forall (key : str) (nb : notebook) (w : app_world),
    key <> [] ->
    read_notebook (lit "test2.ipynb") = Ok nb ->
    exists (out : notebook) (tr' : trace),
      create_documented_notebook client app_py nb (app_calls w) = (Ok out, tr')
      /\ List.length tr'
         = List.length (app_calls w)
           + (1 + List.length (filter annotated (extract_cells nb)))
      /\ (write_error (lit "documented_notebook7.ipynb") out = None ->
          App.main client read_notebook write_error (Some key) w
            = (Ok tt,
               mkAppWorld tr'
                 (app_written w ++ [(lit "documented_notebook7.ipynb", out)])
                 (app_stdout w
                  ++ [lit "Documentation complete. Output saved to: documented_notebook7.ipynb"])))
      /\ (forall e,
            write_error (lit "documented_notebook7.ipynb") out = Some e ->
            App.main client read_notebook write_error (Some key) w
              = (Raise e, mkAppWorld tr' (app_written w) (app_stdout w))).
Proof.
  intros key nb w Hkey Hread. apply truthy_true in Hkey.
  destruct (create_documented_notebook_run client app_py nb (app_calls w))
    as (com & _ & Hrun).
  eexists _, _. split; [exact Hrun|]. split.
  - rewrite length_app. cbn [List.length]. now rewrite length_map.
  - split.
    + intros Hw. unfold App.main. rewrite Hkey. cbn [negb].
      unfold App.create_documented_notebook, bind, App.read, App.with_calls,
        App.write, App.print.
      rewrite Hread, Hrun. cbn [app_calls app_written app_stdout].
      rewrite Hw. reflexivity.
    + intros e Hw. unfold App.main. rewrite Hkey. cbn [negb].
      unfold App.create_documented_notebook, bind, App.read, App.with_calls,
        App.write, App.print.
      rewrite Hread, Hrun. cbn [app_calls app_written app_stdout].
      rewrite Hw. reflexivity.
Qed.

End AppFacts.

(** [main] of [app.py] with an empty key, and with a key and no input
    file. *)
Lemma app_main_stops_before_any_call_sample :
  App.main (constant_client (lit "Sets x")) sample_read sample_write
    (Some []) (mkAppWorld [] [] [])
  = (Raise (ValueError (lit "Please set GROQ_API_KEY environment variable")),
     mkAppWorld [] [] [])
  /\ App.main (constant_client (lit "Sets x")) missing_read sample_write
       (Some (lit "gsk")) (mkAppWorld [] [] [])
     = (Raise (mkExn (lit "FileNotFoundError") (lit "No such file or directory")),
        mkAppWorld [] [] []).
Proof.
  split.
  - apply (proj1 (app_main_stops_before_any_call
                    (constant_client (lit "Sets x")) sample_read sample_write
                    (Some []) (mkAppWorld [] [] []))).
    now right.
  - apply (proj2 (app_main_stops_before_any_call
                    (constant_client (lit "Sets x")) missing_read sample_write
                    (Some (lit "gsk")) (mkAppWorld [] [] []))
             (lit "gsk")).
    + reflexivity.
    + discriminate.
    + reflexivity.
Defined.

(** [main] of [app.py] with a key, the sample notebook as input and a
    service that fails every call. *)
Lemma app_main_writes_once_sample :
  exists (out : notebook) (tr' : trace),
    create_documented_notebook
      (failing_client (mkExn (lit "APIConnectionError") (lit "Connection error.")))
      app_py sample_notebook (app_calls (mkAppWorld [] [] [])) = (Ok out, tr')
    /\ List.length tr'
       = List.length (app_calls (mkAppWorld [] [] []))
         + (1 + List.length (filter annotated (extract_cells sample_notebook)))
    /\ (sample_write (lit "documented_notebook7.ipynb") out = None ->
        App.main
          (failing_client (mkExn (lit "APIConnectionError") (lit "Connection error.")))
          sample_read sample_write (Some (lit "gsk")) (mkAppWorld [] [] [])
          = (Ok tt,
             mkAppWorld tr'
               (app_written (mkAppWorld [] [] [])
                ++ [(lit "documented_notebook7.ipynb", out)])
               (app_stdout (mkAppWorld [] [] [])
                ++ [lit "Documentation complete. Output saved to: documented_notebook7.ipynb"])))
    /\ (forall e,
          sample_write (lit "documented_notebook7.ipynb") out = Some e ->
          App.main
            (failing_client (mkExn (lit "APIConnectionError") (lit "Connection error.")))
            sample_read sample_write (Some (lit "gsk")) (mkAppWorld [] [] [])
            = (Raise e,
               mkAppWorld tr' (app_written (mkAppWorld [] [] []))
                 (app_stdout (mkAppWorld [] [] [])))).
Proof.
  apply (app_main_writes_once
           (failing_client (mkExn (lit "APIConnectionError") (lit "Connection error.")))
           sample_read sample_write (key := lit "gsk") (nb := sample_notebook)
           (mkAppWorld [] [] [])).
  - discriminate.
  - reflexivity.
Defined.

(* ================================================================== *)
(** * The script [streamlit_app.py] *)
(* ================================================================== *)

Section PageFacts.

Variable client : trace -> request -> result (option str).
Variable http : net_log -> str -> result response.
Variable decode_reads : list N -> result notebook.
Variable nbformat_reads : str -> result notebook.
Variable nbformat_read : list N -> result notebook.
Variable nbformat_writes : notebook -> result str.

Lemma st_run (ev : ui_event) (w : page_world) :
  Streamlit.st ev w
    = (Ok tt, mkPageWorld (page_calls w) (page_net w) (page_ui w ++ [ev])).
Proof. reflexivity. Qed.

(** The head of the page shows six things and touches nothing else. *)
Lemma page_head_run :
  exists shown : list ui_event,
    List.length shown = 6
    /\ forall w,
         Streamlit.page_head w
           = (Ok tt, mkPageWorld (page_calls w) (page_net w) (page_ui w ++ shown)).
Proof.
  eexists. split; cycle 1.
  - intros w. unfold Streamlit.page_head, bind. rewrite !st_run.
    cbn [page_calls page_net page_ui]. rewrite <- !app_assoc. cbn [app].
    reflexivity.
  - reflexivity.
Qed.

(** The loop of the preview shows one entry per cell. *)
Lemma preview_loop_run (cells : list nbcell) :
  forall w,
    for_each
      (fun (acc : unit) (c : nbcell) =>
         if eqb (cell_type c) (lit "markdown")
         then Streamlit.st (st_markdown (source c))
         else Streamlit.st (st_code (source c) (lit "python")))
      cells tt w
    = (Ok tt,
       mkPageWorld (page_calls w) (page_net w)
         (page_ui w ++ map preview_event cells)).
Proof.
  induction cells as [|c cells IH]; intros w.
  - simpl. rewrite app_nil_r. now destruct w.
  - cbn [for_each map]. unfold bind.
    assert (E : (if eqb (cell_type c) (lit "markdown")
                 then Streamlit.st (st_markdown (source c))
                 else Streamlit.st (st_code (source c) (lit "python"))) w
                = Streamlit.st (preview_event c) w).
    { unfold preview_event. now destruct (eqb (cell_type c) (lit "markdown")). }
    rewrite E, st_run, IH. cbn [page_calls page_net page_ui].
    now rewrite <- app_assoc.
Qed.

Lemma preview_run (nb : notebook) (w : page_world) :
  Streamlit.preview nb w
    = (Ok tt,
       mkPageWorld (page_calls w) (page_net w)
         (page_ui w
          ++ st_subheader (lit "Preview")
             :: map preview_event (firstn 5 (nb_cells nb))
             ++ (if Nat.ltb 5 (List.length (nb_cells nb))
                 then [st_info (lit "... (Download the notebook to see full documentation)")]
                 else []))).
Proof.
  unfold Streamlit.preview, bind. rewrite st_run, preview_loop_run.
  cbn [page_calls page_net page_ui].
  destruct (Nat.ltb 5 (List.length (nb_cells nb))).
  - rewrite st_run. cbn [page_calls page_net page_ui].
    rewrite <- !app_assoc. reflexivity.
  - unfold ret. rewrite app_nil_r, <- !app_assoc. reflexivity.
Qed.

(** The body of the button: what it shows, for both endings of the
    serializer. *)
Lemma generate_run (nb : notebook) (w : page_world) :
  exists (out : notebook) (tr' : trace),
    create_documented_notebook client streamlit_py nb (page_calls w) = (Ok out, tr')
    /\ Streamlit.generate client nbformat_reads nbformat_writes nb w
       = (Ok tt,
          mkPageWorld tr' (page_net w)
            (page_ui w
             ++ st_spinner (lit "Generating documentation...")
                :: match nbformat_writes out with
                   | Ok notebook_str =>
                       st_download_button (lit "Download Documented Notebook")
                         notebook_str (lit "documented_notebook.ipynb")
                         (lit "application/x-ipynb+json")
                       :: st_success (lit "Documentation generated successfully!")
                       :: st_subheader (lit "Preview")
                       :: map preview_event (firstn 5 (nb_cells out))
                       ++ (if Nat.ltb 5 (List.length (nb_cells out))
                           then [st_info (lit "... (Download the notebook to see full documentation)")]
                           else [])
                   | Raise e =>
                       [st_error (lit "Error generating documentation: " ++ exn_str e)]
                   end)).
Proof.
  destruct (create_documented_notebook_run client streamlit_py nb (page_calls w))
    as (com & _ & Hrun).
  eexists _, _. split; [exact Hrun|].
  unfold Streamlit.generate, try_except, bind. rewrite st_run.
  unfold Streamlit.with_calls, Streamlit.create_documented_notebook.
  cbn [page_calls page_net page_ui]. rewrite Hrun.
  unfold Streamlit.lift.
  destruct (nbformat_writes _) as [text|e].
  - rewrite !st_run, preview_run. cbn [page_calls page_net page_ui].
    rewrite <- !app_assoc. reflexivity.
  - rewrite st_run. cbn [page_calls page_net page_ui].
    rewrite <- !app_assoc. reflexivity.
Qed.

(** Choosing the notebook calls no completion, and requests a URL only
    for a Colab link that is not empty. *)
Lemma choose_notebook_run (inp : widgets) (w : page_world) :
  exists r w',
    Streamlit.choose_notebook http decode_reads nbformat_read inp w = (r, w')
    /\ page_calls w' = page_calls w
    /\ (input_method inp = lit "Upload Notebook" \/ colab_url_input inp = [] ->
        page_net w' = page_net w).
Proof.
  unfold Streamlit.choose_notebook.
  destruct (eqb (input_method inp) (lit "Upload Notebook")) eqn:Em.
  - unfold bind. rewrite st_run. destruct (uploaded_file inp) as [file|].
    + unfold Streamlit.lift. destruct (nbformat_read file) as [nb|e];
        eexists _, _; (split; [reflexivity|]); split; reflexivity.
    + eexists _, _. split; [reflexivity|]. split; reflexivity.
  - unfold bind. rewrite st_run.
    destruct (truthy (colab_url_input inp)) eqn:Eu.
    + unfold try_except. rewrite st_run. unfold Streamlit.with_net.
      cbn [page_calls page_net page_ui].
      destruct (download_colab_notebook http decode_reads (colab_url_input inp)
                  (page_net w)) as [[nb|e] log] eqn:Ed.
      * eexists _, _. split; [reflexivity|]. split; [reflexivity|].
        intros [H|H].
        -- apply eqb_eq in H. congruence.
        -- apply truthy_true in Eu. congruence.
      * rewrite st_run. eexists _, _. split; [reflexivity|].
        split; [reflexivity|].
        intros [H|H].
        -- apply eqb_eq in H. congruence.
        -- apply truthy_true in Eu. congruence.
    + eexists _, _. split; [reflexivity|]. split; reflexivity.
Qed.

End PageFacts.

Section PageTheorems.

Variable client : trace -> request -> result (option str).
Variable http : net_log -> str -> result response.
Variable decode_reads : list N -> result notebook.
Variable nbformat_reads : str -> result notebook.
Variable nbformat_read : list N -> result notebook.
Variable nbformat_writes : notebook -> result str.

(** One run of the page never raises: a failed upload, a failed download
    and a failed serialization end as messages on the page.  The run
    calls the completion service only with a key and a click on the
    button, and requests URLs only with a key, in the Colab mode, for a
    link that is not empty. *)
Theorem page_run_is_guarded :
  forall (inp : widgets) (w : page_world),
  exists w' : page_world,
    Streamlit.main client http decode_reads nbformat_reads nbformat_read
      nbformat_writes inp w = (Ok tt, w')
    /\ (api_key_input inp = [] \/ generate_clicked inp = false ->
        page_calls w' = page_calls w)
    /\ (api_key_input inp = [] \/ input_method inp = lit "Upload Notebook"
        \/ colab_url_input inp = [] ->
        page_net w' = page_net w).
Proof.
  intros inp w. destruct page_head_run as (shown & _ & Hhead).
  unfold Streamlit.main, bind. rewrite Hhead.
  destruct (truthy (api_key_input inp)) eqn:Ek; cbn [negb].
  - rewrite st_run. cbn [page_calls page_net page_ui].
    unfold try_except, bind.
    match goal with
    | |- context [Streamlit.choose_notebook _ _ _ _ ?w1] =>
        destruct (choose_notebook_run http decode_reads nbformat_read inp w1)
          as (r & w2 & Hch & Hcalls & Hnet)
    end.
    rewrite Hch. cbn [page_calls page_net] in Hcalls, Hnet.
    apply truthy_true in Ek.
    destruct r as [[nb|]|e].
    + rewrite st_run. destruct (generate_clicked inp) eqn:Eg.
      * match goal with
        | |- context [Streamlit.generate _ _ _ _ ?w3] =>
            destruct (generate_run client nbformat_reads nbformat_writes nb w3)
              as (out & tr' & _ & Hgen)
        end.
        rewrite Hgen. eexists. split; [reflexivity|].
        cbn [page_calls page_net]. split.
        -- intros [H|H]; congruence.
        -- intros [H|H]; [congruence|]. now apply Hnet.
      * eexists. split; [reflexivity|]. cbn [page_calls page_net]. split.
        -- intros _. exact Hcalls.
        -- intros [H|H]; [congruence|]. now apply Hnet.
    + eexists. split; [reflexivity|]. split.
      * intros _. exact Hcalls.
      * intros [H|H]; [congruence|]. now apply Hnet.
    + rewrite st_run. eexists. split; [reflexivity|].
      cbn [page_calls page_net]. split.
      * intros _. exact Hcalls.
      * intros [H|H]; [congruence|]. now apply Hnet.
  - rewrite st_run. eexists. split; [reflexivity|].
    cbn [page_calls page_net]. split; reflexivity.
Qed.

(** Without a key the page shows its head and the warning, and stops:
    no radio, no uploader, no button, no call, no request. *)
Theorem page_without_key :
  forall (inp : widgets) (w : page_world),
    api_key_input inp = [] ->
    exists head : list ui_event,
      List.length head = 6
      /\ Streamlit.main client http decode_reads nbformat_reads nbformat_read
           nbformat_writes inp w
         = (Ok tt,
            mkPageWorld (page_calls w) (page_net w)
              (page_ui w ++ head
               ++ [st_warning (lit "Please enter your Groq API Key to continue")])).
Proof.
  intros inp w Hk. destruct page_head_run as (shown & Hlen & Hhead).
  exists shown. split; [exact Hlen|].
  unfold Streamlit.main, bind. rewrite Hhead, Hk. cbn [truthy negb].
  rewrite st_run. cbn [page_calls page_net page_ui].
  now rewrite <- app_assoc.
Qed.

(** A Colab link in which no pattern finds an identifier: the page shows
    the error of the download with the identifier message, requests
    nothing, shows no button and calls nothing. *)
Theorem page_reports_link_without_identifier :
  forall (inp : widgets) (w : page_world),
    api_key_input inp <> [] ->
    input_method inp <> lit "Upload Notebook" ->
    colab_url_input inp <> [] ->
    find_file_id patterns (colab_url_input inp) = None ->
    exists head : list ui_event,
      List.length head = 6
      /\ Streamlit.main client http decode_reads nbformat_reads nbformat_read
           nbformat_writes inp w
         = (Ok tt,
            mkPageWorld (page_calls w) (page_net w)
              (page_ui w ++ head
               ++ [ st_radio (lit "Choose input method:")
                      [lit "Upload Notebook"; lit "Google Colab Link"]
                  ; st_text_input (lit "Enter Google Colab URL:") false
                  ; st_spinner (lit "Downloading notebook from Colab...")
                  ; st_error
                      (Streamlit.download_failed file_id_error) ])).
Proof.
  intros inp w Hk Hm Hu Hid. destruct page_head_run as (shown & Hlen & Hhead).
  exists shown. split; [exact Hlen|].
  apply truthy_true in Hk. apply truthy_true in Hu.
  assert (Em : eqb (input_method inp) (lit "Upload Notebook") = false).
  { destruct (eqb _ _) eqn:E; [|reflexivity]. apply eqb_eq in E. congruence. }
  unfold Streamlit.main, bind. rewrite Hhead, Hk. cbn [negb].
  rewrite st_run. unfold try_except, bind, Streamlit.choose_notebook.
  rewrite Em. unfold bind. rewrite st_run, Hu. unfold try_except, bind.
  rewrite st_run. unfold Streamlit.with_net, download_colab_notebook.
  rewrite Hid. unfold raise. rewrite st_run. unfold ret.
  cbn [page_calls page_net page_ui]. rewrite <- !app_assoc. reflexivity.
Qed.

(** An uploaded notebook that parses, with a key and a click: the page
    runs the pipeline and, when the result serializes, offers it for
    download and previews it.  The preview starts with the overview as
    markdown, shows at most five cells, and the note about more cells
    appears exactly when the output has more than five. *)
Theorem page_shows_documented_upload :
  forall (inp : widgets) (w : page_world) (file : list N) (nb : notebook),
    api_key_input inp <> [] ->
    input_method inp = lit "Upload Notebook" ->
    uploaded_file inp = Some file ->
    nbformat_read file = Ok nb ->
    generate_clicked inp = true ->
    exists (out : notebook) (tr' : trace) (overview : str) (rest : list nbcell)
           (before : list ui_event),
      create_documented_notebook client streamlit_py nb (page_calls w)
        = (Ok out, tr')
      /\ nb_cells out = new_markdown_cell overview :: rest
      /\ (forall notebook_str,
            nbformat_writes out = Ok notebook_str ->
            Streamlit.main client http decode_reads nbformat_reads nbformat_read
              nbformat_writes inp w
            = (Ok tt,
               mkPageWorld tr' (page_net w)
                 (page_ui w ++ before
                  ++ [ st_download_button (lit "Download Documented Notebook")
                         notebook_str (lit "documented_notebook.ipynb")
                         (lit "application/x-ipynb+json")
                     ; st_success (lit "Documentation generated successfully!")
                     ; st_subheader (lit "Preview")
                     ; st_markdown overview ]
                  ++ map preview_event (firstn 4 rest)
                  ++ (if Nat.ltb 4 (List.length rest)
                      then [st_info (lit "... (Download the notebook to see full documentation)")]
                      else []))))
      /\ (forall e,
            nbformat_writes out = Raise e ->
            Streamlit.main client http decode_reads nbformat_reads nbformat_read
              nbformat_writes inp w
            = (Ok tt,
               mkPageWorld tr' (page_net w)
                 (page_ui w ++ before
                  ++ [st_error (lit "Error generating documentation: " ++ exn_str e)]))).
Proof.
  intros inp w file nb Hk Hm Hf Hread Hg.
  destruct page_head_run as (shown & _ & Hhead).
  apply truthy_true in Hk.
  assert (Em : eqb (input_method inp) (lit "Upload Notebook") = true)
    by now apply eqb_eq.
  destruct (create_documented_notebook_run client streamlit_py nb (page_calls w))
    as (com & _ & Hrun).
  eexists _, _, _, _,
    (shown ++ [ st_radio (lit "Choose input method:")
                  [lit "Upload Notebook"; lit "Google Colab Link"]
              ; st_file_uploader (lit "Choose a notebook file") [lit "ipynb"]
              ; st_button (lit "Generate Documentation")
              ; st_spinner (lit "Generating documentation...") ]).
  split; [exact Hrun|]. split; [reflexivity|].
  assert (Hrunmain :
            Streamlit.main client http decode_reads nbformat_reads nbformat_read
              nbformat_writes inp w
            = Streamlit.generate client nbformat_reads nbformat_writes nb
                (mkPageWorld (page_calls w) (page_net w)
                   (page_ui w ++ shown
                    ++ [ st_radio (lit "Choose input method:")
                           [lit "Upload Notebook"; lit "Google Colab Link"]
                       ; st_file_uploader (lit "Choose a notebook file") [lit "ipynb"]
                       ; st_button (lit "Generate Documentation") ]))).
  { unfold Streamlit.main, bind. rewrite Hhead, Hk. cbn [negb].
    rewrite st_run. unfold try_except at 1. unfold bind, Streamlit.choose_notebook.
    rewrite Em. unfold bind. rewrite st_run, Hf. unfold Streamlit.lift.
    rewrite Hread. unfold ret. rewrite st_run, Hg.
    cbn [page_calls page_net page_ui]. rewrite <- !app_assoc. cbn [app].
    destruct (Streamlit.generate client nbformat_reads nbformat_writes nb _)
      as [[u|e] w'] eqn:Eg; [reflexivity|].
    match type of Eg with
    | Streamlit.generate _ _ _ _ ?w3 = _ =>
        destruct (generate_run client nbformat_reads nbformat_writes nb w3)
          as (o & t & _ & Hgen)
    end.
    rewrite Hgen in Eg. discriminate. }
  rewrite Hrunmain.
  match goal with
  | |- context [Streamlit.generate _ _ _ _ ?w3] =>
      destruct (generate_run client nbformat_reads nbformat_writes nb w3)
        as (out & tr' & Hrun' & Hgen)
  end.
  cbn [page_calls] in Hrun'. rewrite Hrun in Hrun'.
  inversion Hrun'; subst out tr'. clear Hrun'.
  rewrite Hgen. cbn [page_calls page_net page_ui nb_cells List.length firstn map].
  split.
  - intros text Hw. rewrite Hw. change (preview_event (new_markdown_cell ?s))
      with (st_markdown s).
    rewrite <- !app_assoc. cbn [app]. reflexivity.
  - intros e Hw. rewrite Hw. rewrite <- !app_assoc. cbn [app]. reflexivity.
Qed.

End PageTheorems.

(** The page with no key typed in. *)
Lemma page_without_key_sample :
  exists head : list ui_event,
    List.length head = 6
    /\ Streamlit.main (constant_client (lit "Sets x")) sample_http sample_reads
         sample_nbformat_reads sample_nbformat_read sample_nbformat_writes
         widgets_without_key empty_page
       = (Ok tt,
          mkPageWorld (page_calls empty_page) (page_net empty_page)
            (page_ui empty_page ++ head
             ++ [st_warning (lit "Please enter your Groq API Key to continue")])).
Proof.
  apply (page_without_key (constant_client (lit "Sets x")) sample_http
           sample_reads sample_nbformat_reads sample_nbformat_read
           sample_nbformat_writes widgets_without_key empty_page).
  reflexivity.
Defined.

(** The page with the link [https://example.com/notebook]. *)
Lemma page_reports_link_without_identifier_sample :
  exists head : list ui_event,
    List.length head = 6
    /\ Streamlit.main (constant_client (lit "Sets x")) sample_http sample_reads
         sample_nbformat_reads sample_nbformat_read sample_nbformat_writes
         widgets_with_bad_link empty_page
       = (Ok tt,
          mkPageWorld (page_calls empty_page) (page_net empty_page)
            (page_ui empty_page ++ head
             ++ [ st_radio (lit "Choose input method:")
                    [lit "Upload Notebook"; lit "Google Colab Link"]
                ; st_text_input (lit "Enter Google Colab URL:") false
                ; st_spinner (lit "Downloading notebook from Colab...")
                ; st_error (Streamlit.download_failed file_id_error) ])).
Proof.
  apply (page_reports_link_without_identifier (constant_client (lit "Sets x"))
           sample_http sample_reads sample_nbformat_reads sample_nbformat_read
           sample_nbformat_writes widgets_with_bad_link empty_page).
  - discriminate.
  - vm_compute. discriminate.
  - discriminate.
  - reflexivity.
Defined.

(** The page with the sample notebook uploaded and the button clicked. *)
Lemma page_shows_documented_upload_sample :
  exists (out : notebook) (tr' : trace) (overview : str) (rest : list nbcell)
         (before : list ui_event),
    create_documented_notebook (constant_client (lit "Sets x")) streamlit_py
      sample_notebook (page_calls empty_page) = (Ok out, tr')
    /\ nb_cells out = new_markdown_cell overview :: rest
    /\ (forall notebook_str,
          sample_nbformat_writes out = Ok notebook_str ->
          Streamlit.main (constant_client (lit "Sets x")) sample_http
            sample_reads sample_nbformat_reads sample_nbformat_read
            sample_nbformat_writes widgets_with_upload empty_page
          = (Ok tt,
             mkPageWorld tr' (page_net empty_page)
               (page_ui empty_page ++ before
                ++ [ st_download_button (lit "Download Documented Notebook")
                       notebook_str (lit "documented_notebook.ipynb")
                       (lit "application/x-ipynb+json")
                   ; st_success (lit "Documentation generated successfully!")
                   ; st_subheader (lit "Preview")
                   ; st_markdown overview ]
                ++ map preview_event (firstn 4 rest)
                ++ (if Nat.ltb 4 (List.length rest)
                    then [st_info (lit "... (Download the notebook to see full documentation)")]
                    else []))))
    /\ (forall e,
          sample_nbformat_writes out = Raise e ->
          Streamlit.main (constant_client (lit "Sets x")) sample_http
            sample_reads sample_nbformat_reads sample_nbformat_read
            sample_nbformat_writes widgets_with_upload empty_page
          = (Ok tt,
             mkPageWorld tr' (page_net empty_page)
               (page_ui empty_page ++ before
                ++ [st_error (lit "Error generating documentation: " ++ exn_str e)]))).
Proof.
  apply (page_shows_documented_upload (constant_client (lit "Sets x"))
           sample_http sample_reads sample_nbformat_reads sample_nbformat_read
           sample_nbformat_writes widgets_with_upload empty_page
           (file := []) (nb := sample_notebook)).
  - discriminate.
  - reflexivity.
  - reflexivity.
  - reflexivity.
  - reflexivity.
Defined.
